(** * Todo chatbot backend: task tools, chat turn and token issuance

    A shallow embedding of [app/models.py], [app/routes/tasks.py],
    [app/routes/chat.py] and [app/routes/auth.py].

    Conventions of the embedding.
    - A Python [str] is a [string] holding the UTF-8 bytes of the text, so
      the literals of the source appear here byte for byte.
    - A [datetime] is an integer time stamp.
    - A handler runs in a monad that threads the world (the committed
      content of the database, the number of clock readings made so far and
      a trace of the commits and resolver invocations) and may raise.
      In the source every write is followed by [db.commit()] before the
      next statement that can raise, so only committed content is
      modelled and [db.rollback()] has nothing to discard.
    - Library and language primitives whose behaviour is outside the
      repository ([int()] on a string, [str.lower], [eval], the password
      hash, the token signature, the clock, the process environment and the
      completion service) are variables of the section. *)

From Stdlib Require Import ZArith List String Ascii Bool Lia Sorted DecimalString Relations.
Import ListNotations.

Set Warnings "-register-all".

Open Scope string_scope.
Open Scope Z_scope.
Open Scope list_scope.

(** String concatenation, written apart from the append of lists. *)
Infix "+++" := String.append (at level 60, right associativity).

(** ** Python values and built-ins with a closed definition *)

Module Py.

  (** [needle in hay] on strings. *)
Fixpoint contains (needle hay : string) : bool :=
    String.prefix needle hay ||
    match hay with
    | EmptyString => false
    | String _ rest => contains needle rest
    end.

  (** [any(word in text for word in words)]. *)
Definition any_in (words : list string) (text : string) : bool :=
    existsb (fun word => contains word text) words.

  (** [str(n)] for an integer. *)
Definition str (n : Z) : string := NilZero.string_of_int (Z.to_int n).

  (** Truth value of an [Optional[int]]. *)
Definition truthy_int (n : option Z) : bool :=
    match n with
    | None => false
    | Some k => negb (Z.eqb k 0)
    end.

  (** Truth value of an [Optional[str]]. *)
Definition truthy_str (s : option string) : bool :=
    match s with
    | None => false
    | Some EmptyString => false
    | Some _ => true
    end.

  (** Truth value of an optional list. *)
Definition truthy_list {A} (l : option (list A)) : bool :=
    match l with
    | None => false
    | Some [] => false
    | Some _ => true
    end.

  (** The values a tool-call argument string may evaluate to. *)
Inductive value :=
  | VNone
  | VBool (b : bool)
  | VInt (n : Z)
  | VStr (s : string)
  | VList (items : list value)
  | VDict (entries : list (string * value)).

  (** The line feed of an escaped [\n]. *)
Definition LF : string := String (ascii_of_nat 10) EmptyString.

End Py.

(** ** Exceptions *)

Inductive PyExc :=
| ValueError (literal : string)            (* int() on a string that is no integer *)
| IntegrityError (column : string)         (* NOT NULL constraint failed *)
| OtherError (origin : string)             (* any other exception *)
| HTTPException (status_code : Z) (detail : Detail)
with Detail :=
| Text (s : string)
| StrOf (e : PyExc).                       (* str(e) *)

Definition NotFound : Z := 404.
Definition Forbidden : Z := 403.
Definition Internal : Z := 500.
Definition DuplicateEmail : Z := 400.
Definition InvalidCredentials : Z := 401.

(** ** app/models.py *)

Module User.
Record t := mk {
    id : Z;
    email : string;
    name : string;
    hashed_password : string;
    created_at : Z;
    updated_at : Z
  }.
End User.

Module Task.
Record t := mk {
    id : Z;
    user_id : Z;
    title : string;
    description : option string;
    completed : bool;
    created_at : Z;
    updated_at : Z
  }.
End Task.

Module Conversation.
Record t := mk {
    id : Z;
    user_id : Z;
    created_at : Z;
    updated_at : Z
  }.
End Conversation.

Module Message.
Record t := mk {
    id : Z;
    user_id : Z;
    conversation_id : Z;
    role : string;
    content : string;
    created_at : Z
  }.
End Message.

(** ** The record store

    A table is the list of its rows in rowid order, which is the order in
    which a scan without ORDER BY returns them. *)

Module Table.
Section Rows.
Context {R : Type} (rid : R -> Z).

    (** [db.get(Model, key)]. *)
Definition get (rows : list R) (key : Z) : option R :=
      find (fun r => Z.eqb (rid r) key) rows.

    (** The rowid given to the next inserted row: 1 in an empty table,
        otherwise one more than the largest rowid in use. *)
Definition next_rowid (rows : list R) : Z :=
      match rows with
      | [] => 1
      | r :: rest => 1 + fold_left Z.max (map rid rest) (rid r)
      end.

    (** [db.add(row); db.commit(); db.refresh(row)] for a new row, built
        from the rowid it receives. *)
Definition insert (new : Z -> R) (rows : list R) : R * list R :=
      let r := new (next_rowid rows) in (r, rows ++ [r]).

    (** [db.add(row); db.commit()] for a row loaded from the table. *)
Definition replace (r' : R) (rows : list R) : list R :=
      map (fun r => if Z.eqb (rid r) (rid r') then r' else r) rows.

    (** [db.delete(row); db.commit()]. *)
Definition remove (key : Z) (rows : list R) : list R :=
      filter (fun r => negb (Z.eqb (rid r) key)) rows.

    (** Rowids strictly increase along the table. *)
Definition sorted (rows : list R) : Prop :=
      StronglySorted Z.lt (map rid rows).
End Rows.
End Table.

Arguments Table.get {R} rid rows key : simpl never.
Arguments Table.replace {R} rid r' rows : simpl never.
Arguments Table.remove {R} rid key rows : simpl never.
Arguments Table.next_rowid {R} rid rows : simpl never.

Record Db := mkDb {
  users : list User.t;
  tasks : list Task.t;
  conversations : list Conversation.t;
  messages : list Message.t
}.

Definition set_users (f : list User.t -> list User.t) (d : Db) : Db :=
  mkDb (f (users d)) (tasks d) (conversations d) (messages d).
Definition set_tasks (f : list Task.t -> list Task.t) (d : Db) : Db :=
  mkDb (users d) (f (tasks d)) (conversations d) (messages d).
Definition set_conversations (f : list Conversation.t -> list Conversation.t) (d : Db) : Db :=
  mkDb (users d) (tasks d) (f (conversations d)) (messages d).
Definition set_messages (f : list Message.t -> list Message.t) (d : Db) : Db :=
  mkDb (users d) (tasks d) (conversations d) (f (messages d)).

Definition empty_db : Db := mkDb [] [] [] [].

(** Every table has strictly increasing rowids. *)
Definition db_wf (d : Db) : Prop :=
  Table.sorted User.id (users d) /\
  Table.sorted Task.id (tasks d) /\
  Table.sorted Conversation.id (conversations d) /\
  Table.sorted Message.id (messages d).

(** ** The world and the handler monad *)

Inductive Event :=
| EvCommit (after : Db)                          (* db.commit() *)
| EvAgent (user_message : string) (user_id : string).  (* call_ai_agent entered *)

Record World := mkWorld {
  db : Db;
  ticks : nat;
  trace : list Event
}.

Inductive Outcome (A : Type) :=
| Return (a : A)
| Raise (e : PyExc).
Arguments Return {A} a.
Arguments Raise {A} e.

Definition M (A : Type) : Type := World -> Outcome A * World.

Definition ret {A} (a : A) : M A := fun w => (Return a, w).

Definition bind {A B} (c : M A) (k : A -> M B) : M B :=
  fun w =>
    match c w with
    | (Return a, w') => k a w'
    | (Raise e, w') => (Raise e, w')
    end.

Definition raise {A} (e : PyExc) : M A := fun w => (Raise e, w).

Notation "x <- c ;; k" := (bind c (fun x => k))
  (at level 61, c at next level, right associativity).
Notation "c ;;; k" := (bind c (fun _ => k))
  (at level 61, right associativity).

(** Read the committed database. *)
Definition query {A} (f : Db -> A) : M A := fun w => (Return (f (db w)), w).

(** [db.commit()] of a write: the database changes and the commit is traced. *)
Definition commit {A} (f : Db -> A * Db) : M A :=
  fun w =>
    let '(a, d) := f (db w) in
    (Return a, mkWorld d (ticks w) (trace w ++ [EvCommit d])).

(** [db.rollback()]: uncommitted writes are dropped; none are modelled. *)
Definition rollback : M unit := ret tt.

(** [try: body / except ... as e: handler]. *)
Definition try_ {A} (body : M A) (handler : PyExc -> M A) : M A :=
  fun w =>
    match body w with
    | (Raise e, w') => handler e w'
    | r => r
    end.

(** [isinstance(e, HTTPException)]. *)
Definition is_HTTPException (e : PyExc) : bool :=
  match e with
  | HTTPException _ _ => true
  | _ => false
  end.

(** [raise HTTPException(status_code=500, detail=str(e))]. *)
Definition raise_internal {A} (e : PyExc) : M A :=
  raise (HTTPException Internal (StrOf e)).

(** [except HTTPException: raise / except Exception as e: db.rollback(); raise HTTPException(500, ...)]. *)
Definition reraise_or_rollback {A} (e : PyExc) : M A :=
  if is_HTTPException e then raise e
  else rollback ;;; raise_internal e.

(** ** Request and response schemas of app/routes/tasks.py *)

Module AddTaskInput.
Record t := mk { user_id : string; title : string; description : option string }.
End AddTaskInput.

Module ListTasksInput.
Record t := mk { user_id : string; status : option string }.
End ListTasksInput.

Module CompleteTaskInput.
Record t := mk { user_id : string; task_id : Z }.
End CompleteTaskInput.

Module DeleteTaskInput.
Record t := mk { user_id : string; task_id : Z }.
End DeleteTaskInput.

Module UpdateTaskInput.
Record t := mk {
    user_id : string;
    task_id : Z;
    title : option string;
    description : option string
  }.
End UpdateTaskInput.

(** The dictionary [{"task_id": .., "status": .., "title": ..}]. *)
Module ToolResult.
Record t := mk { task_id : Z; status : string; title : string }.
End ToolResult.

(** One entry of the listing; the time stamps stand for their ISO rendering. *)
Module TaskSummary.
Record t := mk {
    id : Z;
    title : string;
    description : option string;
    completed : bool;
    created_at : Z;
    updated_at : Z
  }.
End TaskSummary.

Definition summary (task : Task.t) : TaskSummary.t :=
  TaskSummary.mk (Task.id task) (Task.title task) (Task.description task)
    (Task.completed task) (Task.created_at task) (Task.updated_at task).

(** [db.add(task); db.commit(); db.refresh(task)] for a new task. *)
Definition insert_task (new : Z -> Task.t) : M Task.t :=
  commit (fun d =>
    let '(task, rows) := Table.insert Task.id new (tasks d) in
    (task, set_tasks (fun _ => rows) d)).

(** [db.add(task); db.commit(); db.refresh(task)] for a loaded task. *)
Definition save_task (task : Task.t) : M Task.t :=
  commit (fun d => (task, set_tasks (Table.replace Task.id task) d)).

(** [db.delete(task); db.commit()]. *)
Definition remove_task (task : Task.t) : M unit :=
  commit (fun d => (tt, set_tasks (Table.remove Task.id (Task.id task)) d)).

(** ** Schemas of app/routes/auth.py *)

Module SignupRequest.
Record t := mk { name : string; email : string; password : string }.
End SignupRequest.

Module LoginRequest.
Record t := mk { email : string; password : string }.
End LoginRequest.

(** The dictionary [{"id": .., "email": .., "name": ..}]. *)
Module UserSummary.
Record t := mk { id : Z; email : string; name : string }.
End UserSummary.

Module AuthResponse.
Record t := mk { token : string; user : UserSummary.t }.
End AuthResponse.

(** The claims [{"sub": .., "exp": ..}] handed to [jwt.encode]. *)
Module Payload.
Record t := mk { sub : string; exp : Z }.
End Payload.

Definition ALGORITHM : string := "HS256".

(** [db.exec(select(User).where(User.email == email)).first()]. *)
Definition first_user_by_email (email : string) : M (option User.t) :=
  query (fun d => find (fun u => String.eqb (User.email u) email) (users d)).

(** [db.add(user); db.commit(); db.refresh(user)]. *)
Definition insert_user (new : Z -> User.t) : M User.t :=
  commit (fun d =>
    let '(user, rows) := Table.insert User.id new (users d) in
    (user, set_users (fun _ => rows) d)).

(** ** Schemas of app/routes/chat.py *)

Module ChatRequest.
Record t := mk { conversation_id : option Z; message : string }.
End ChatRequest.

(** The dictionary [{"name": .., "parameters": ..}]. *)
Module ToolCall.
Record t := mk { name : string; parameters : Py.value }.
End ToolCall.

Module ChatResponse.
Record t := mk {
    conversation_id : Z;
    response : string;
    tool_calls : list ToolCall.t
  }.
End ChatResponse.

(** What the completion service answered, in the shape its API documents:
    either the exchange raises (transport error, a body without
    [choices[0].message]), or [message] carries an optional list of tool
    calls, each with a function name and an argument string, and a content
    that is a string or null. *)
Module RawToolCall.
Record t := mk { name : string; arguments : string }.
End RawToolCall.

Inductive Reply :=
| ReplyRaises
| ReplyMessage (tool_calls : option (list RawToolCall.t)) (content : option string).

(** [db.add(conversation); db.commit(); db.refresh(conversation)]. *)
Definition insert_conversation (new : Z -> Conversation.t) : M Conversation.t :=
  commit (fun d =>
    let '(conversation, rows) := Table.insert Conversation.id new (conversations d) in
    (conversation, set_conversations (fun _ => rows) d)).

(** [db.add(conversation); db.commit()] for a loaded conversation. *)
Definition save_conversation (conversation : Conversation.t) : M unit :=
  commit (fun d =>
    (tt, set_conversations (Table.replace Conversation.id conversation) d)).

(** [db.add(message); db.commit()]. *)
Definition insert_message (new : Z -> Message.t) : M Message.t :=
  commit (fun d =>
    let '(message, rows) := Table.insert Message.id new (messages d) in
    (message, set_messages (fun _ => rows) d)).

(** Record an event in the trace. *)
Definition emit (ev : Event) : M unit :=
  fun w => (Return tt, mkWorld (db w) (ticks w) (trace w ++ [ev])).

(** [execute_tool]: the body only formats the name of the call. *)
Definition execute_tool (tool_call : ToolCall.t) (user_id : string) : M string :=
  ret ("Executed " +++ ToolCall.name tool_call +++ " successfully!").

(** ** Sample primitives, used to run the handlers on concrete requests *)

Module Sample.

Definition clock (n : nat) : Z := 1700000000 + Z.of_nat n.

Definition digit (c : ascii) : option Z :=
  let n := Z.of_nat (nat_of_ascii c) in
  if (48 <=? n) && (n <=? 57) then Some (n - 48) else None.

Fixpoint digits (acc : Z) (s : string) : option Z :=
  match s with
  | EmptyString => Some acc
  | String c rest =>
      match digit c with
      | Some d => digits (10 * acc + d) rest
      | None => None
      end
  end.

Definition unsigned (s : string) : option Z :=
  match s with
  | EmptyString => None
  | _ => digits 0 s
  end.

(** [int(s)] on an optional sign followed by decimal digits.  Any other
    string is answered [None]; [int()] itself also tolerates surrounding
    blanks and single underscores between digits, which no example uses. *)
Definition int (s : string) : option Z :=
  match s with
  | String "-" rest => option_map Z.opp (unsigned rest)
  | String "+" rest => unsigned rest
  | _ => unsigned s
  end.

Definition lower_char (c : ascii) : ascii :=
  let n := nat_of_ascii c in
  if (Nat.leb 65 n && Nat.leb n 90)%bool then ascii_of_nat (n + 32) else c.

(** [s.lower()] on ASCII text. *)
Fixpoint lower (s : string) : string :=
  match s with
  | EmptyString => EmptyString
  | String c rest => String (lower_char c) (lower rest)
  end.

(** [eval] on the two dictionary displays the examples use. *)
Definition eval (s : string) : option Py.value :=
  if String.eqb s "{'title': 'buy milk'}"
  then Some (Py.VDict [("title", Py.VStr "buy milk")])
  else if String.eqb s "{}" then Some (Py.VDict [])
  else None.

(** An environment with no variable set. *)
Definition getenv_unset (name : string) : option string := None.

(** An environment where only the completion-service key is set. *)
Definition getenv_key (name : string) : option string :=
  if String.eqb name "OPENAI_API_KEY" then Some "sk-sample" else None.

Definition pwd_hash (password : string) : string := "$2b$" +++ password.

Definition pwd_verify (password hashed : string) : bool :=
  String.eqb hashed ("$2b$" +++ password).

(** A stand-in for the signed token that keeps both claims readable. *)
Definition jwt_encode (payload : Payload.t) (key algorithm : string) : string :=
  algorithm +++ "." +++ Payload.sub payload +++ "." +++ Py.str (Payload.exp payload).


(** A service that answers with neither tool calls nor content. *)
Definition null_content (key user_message : string) : Reply :=
  ReplyMessage None None.

(** A service that is never reached. *)
Definition unreachable (key user_message : string) : Reply := ReplyRaises.

Definition world0 : World := mkWorld empty_db 0 [].

(** User 1 owns task 1. *)
Definition task1 : Task.t :=
  Task.mk 1 1 "buy milk" (Some "two litres") false 1699999990 1699999990.

Definition world_with_task : World := mkWorld (mkDb [] [task1] [] []) 0 [].

(** User 1 owns conversation 1. *)
Definition conversation1 : Conversation.t :=
  Conversation.mk 1 1 1699999990 1699999990.

Definition world_with_conversation : World :=
  mkWorld (mkDb [] [] [conversation1] []) 0 [].

(** User 1 has signed up. *)
Definition user1 : User.t :=
  User.mk 1 "ada@example.org" "Ada" "$2b$secret" 1699999990 1699999990.

Definition world_with_user : World := mkWorld (mkDb [user1] [] [] []) 0 [].

(** A service that answers in plain words. *)
Definition plain_text (key user_message : string) : Reply :=
  ReplyMessage None (Some "Hello!").


(** User 2 owns task 2. *)
Definition task2 : Task.t :=
  Task.mk 2 2 "call home" None false 1699999991 1699999991.

Definition world_two_owners : World := mkWorld (mkDb [] [task1; task2] [] []) 0 [].

End Sample.

(** ** Vocabulary of the specification *)

(** The status filter of the listing: pending means not completed,
    completed means completed, anything else means all. *)
Definition status_matches (status : option string) (task : Task.t) : bool :=
  match status with
  | Some s =>
      if String.eqb s "pending" then negb (Task.completed task)
      else if String.eqb s "completed" then Task.completed task
      else true
  | None => true
  end.

(** The world differs from [w] by one more resolver invocation only. *)
Definition agent_entered (user_message user_id : string) (w : World) : World :=
  mkWorld (db w) (ticks w) (trace w ++ [EvAgent user_message user_id]).

Section Backend.

  (** The [n]-th reading of [datetime.utcnow()]. *)
Variable clock : nat -> Z.
  (** [int(s)] on a string: [None] when it raises ValueError. *)
Variable py_int : string -> option Z.

Definition utcnow : M Z :=
    fun w => (Return (clock (ticks w)), mkWorld (db w) (S (ticks w)) (trace w)).

Definition int (s : string) : M Z :=
    match py_int s with
    | Some n => ret n
    | None => raise (ValueError s)
    end.

  (** *** app/routes/tasks.py *)

Definition add_task (input : AddTaskInput.t) : M ToolResult.t :=
    try_
      (uid <- int (AddTaskInput.user_id input) ;;
       created <- utcnow ;;
       updated <- utcnow ;;
       task <- insert_task (fun rowid =>
                 Task.mk rowid uid (AddTaskInput.title input)
                   (AddTaskInput.description input) false created updated) ;;
       ret (ToolResult.mk (Task.id task) "created" (Task.title task)))
      (fun e => rollback ;;; raise_internal e).

Definition list_tasks (input : ListTasksInput.t) : M (list TaskSummary.t) :=
    try_
      (uid <- int (ListTasksInput.user_id input) ;;
       let where_ := fun task : Task.t => Z.eqb (Task.user_id task) uid in
       let where_ :=
         match ListTasksInput.status input with
         | Some status =>
             if String.eqb status "pending"
             then fun task => where_ task && Bool.eqb (Task.completed task) false
             else if String.eqb status "completed"
             then fun task => where_ task && Bool.eqb (Task.completed task) true
             else where_
         | None => where_
         end in
       rows <- query (fun d => filter where_ (tasks d)) ;;
       ret (map summary rows))
      (fun e => raise_internal e).

Definition complete_task (input : CompleteTaskInput.t) : M ToolResult.t :=
    try_
      (found <- query (fun d => Table.get Task.id (tasks d) (CompleteTaskInput.task_id input)) ;;
       match found with
       | None => raise (HTTPException NotFound (Text "Task not found"))
       | Some task =>
           uid <- int (CompleteTaskInput.user_id input) ;;
           if negb (Z.eqb (Task.user_id task) uid)
           then raise (HTTPException Forbidden (Text "Not authorized"))
           else
             now <- utcnow ;;
             task <- save_task
                       (Task.mk (Task.id task) (Task.user_id task) (Task.title task)
                          (Task.description task) true (Task.created_at task) now) ;;
             ret (ToolResult.mk (Task.id task) "completed" (Task.title task))
       end)
      reraise_or_rollback.

Definition delete_task (input : DeleteTaskInput.t) : M ToolResult.t :=
    try_
      (found <- query (fun d => Table.get Task.id (tasks d) (DeleteTaskInput.task_id input)) ;;
       match found with
       | None => raise (HTTPException NotFound (Text "Task not found"))
       | Some task =>
           uid <- int (DeleteTaskInput.user_id input) ;;
           if negb (Z.eqb (Task.user_id task) uid)
           then raise (HTTPException Forbidden (Text "Not authorized"))
           else
             remove_task task ;;;
             ret (ToolResult.mk (Task.id task) "deleted" (Task.title task))
       end)
      reraise_or_rollback.

Definition update_task (input : UpdateTaskInput.t) : M ToolResult.t :=
    try_
      (found <- query (fun d => Table.get Task.id (tasks d) (UpdateTaskInput.task_id input)) ;;
       match found with
       | None => raise (HTTPException NotFound (Text "Task not found"))
       | Some task =>
           uid <- int (UpdateTaskInput.user_id input) ;;
           if negb (Z.eqb (Task.user_id task) uid)
           then raise (HTTPException Forbidden (Text "Not authorized"))
           else
             let title :=
               match UpdateTaskInput.title input with
               | Some title => title
               | None => Task.title task
               end in
             let description :=
               match UpdateTaskInput.description input with
               | Some description => Some description
               | None => Task.description task
               end in
             now <- utcnow ;;
             task <- save_task
                       (Task.mk (Task.id task) (Task.user_id task) title description
                          (Task.completed task) (Task.created_at task) now) ;;
             ret (ToolResult.mk (Task.id task) "updated" (Task.title task))
       end)
      reraise_or_rollback.

  (** *** app/routes/auth.py *)

  (** [os.getenv(name)]. *)
Variable getenv : string -> option string.
  (** [pwd_context.hash] and [pwd_context.verify]. *)
Variable pwd_hash : string -> string.
Variable pwd_verify : string -> string -> bool.
  (** [jwt.encode(payload, key, algorithm=..)]. *)
Variable jwt_encode : Payload.t -> string -> string -> string.

Definition SECRET_KEY : string :=
    match getenv "BETTER_AUTH_SECRET" with
    | Some secret => secret
    | None => "your-secret-key-min-32-characters"
    end.

Definition create_access_token (user_id : string) : M string :=
    now <- utcnow ;;
    let payload := Payload.mk user_id now in
    ret (jwt_encode payload SECRET_KEY ALGORITHM).

Definition signup (request : SignupRequest.t) : M AuthResponse.t :=
    existing_user <- first_user_by_email (SignupRequest.email request) ;;
    match existing_user with
    | Some _ => raise (HTTPException DuplicateEmail (Text "Email already registered"))
    | None =>
        let hashed_password := pwd_hash (SignupRequest.password request) in
        created <- utcnow ;;
        updated <- utcnow ;;
        user <- insert_user (fun rowid =>
                  User.mk rowid (SignupRequest.email request) (SignupRequest.name request)
                    hashed_password created updated) ;;
        token <- create_access_token (Py.str (User.id user)) ;;
        ret (AuthResponse.mk token
               (UserSummary.mk (User.id user) (User.email user) (User.name user)))
    end.

Definition login (request : LoginRequest.t) : M AuthResponse.t :=
    found <- first_user_by_email (LoginRequest.email request) ;;
    match found with
    | None => raise (HTTPException InvalidCredentials (Text "Invalid email or password"))
    | Some user =>
        if negb (pwd_verify (LoginRequest.password request) (User.hashed_password user))
        then raise (HTTPException InvalidCredentials (Text "Invalid email or password"))
        else
          token <- create_access_token (Py.str (User.id user)) ;;
          ret (AuthResponse.mk token
                 (UserSummary.mk (User.id user) (User.email user) (User.name user)))
    end.

  (** *** app/routes/chat.py *)

  (** [s.lower()]. *)
Variable py_lower : string -> string.
  (** [eval(s)]: [None] when it raises. *)
Variable py_eval : string -> option Py.value.
  (** The POST to the completion service made with the given key for the
      given user message, decoded. *)
Variable post_chat_completions : string -> string -> Reply.

Definition get_fallback_response (user_message user_id : string)
    : string * list ToolCall.t :=
    let message_lower := py_lower user_message in
    if Py.any_in ["add"; "create"; "remember"] message_lower then
      ("I've added that task for you! Is there anything else?",
       [ToolCall.mk "add_task"
          (Py.VDict [("title", Py.VStr "New task");
                     ("description", Py.VStr "Created from chat")])])
    else if Py.any_in ["list"; "show"; "what"; "pending"] message_lower then
      ("Here are your tasks:" +++ Py.LF +++ "â€¢ Task 1 (pending)" +++ Py.LF +++
       "â€¢ Task 2 (completed)" +++ Py.LF +++ Py.LF +++
       "You have 1 pending task.",
       [ToolCall.mk "list_tasks" (Py.VDict [("status", Py.VStr "all")])])
    else if Py.any_in ["complete"; "done"; "finish"] message_lower then
      ("Great job! I've marked that task as complete! ðŸŽ‰",
       [ToolCall.mk "complete_task" (Py.VDict [("task_id", Py.VInt 1)])])
    else if Py.any_in ["delete"; "remove"] message_lower then
      ("I've deleted that task for you.",
       [ToolCall.mk "delete_task" (Py.VDict [("task_id", Py.VInt 1)])])
    else
      ("I'm your AI task assistant! I can help you:" +++ Py.LF +++ Py.LF +++
       "â€¢ Add new tasks" +++ Py.LF +++ "â€¢ List your tasks" +++ Py.LF +++
       "â€¢ Mark tasks as complete" +++ Py.LF +++ "â€¢ Delete tasks" +++ Py.LF +++
       Py.LF +++ "Just ask me in natural language!",
       []).

  (** The loop building [tool_calls]: one dictionary per requested call,
      raising when an argument string does not evaluate. *)
Fixpoint collect_tool_calls (requested : list RawToolCall.t) : M (list ToolCall.t) :=
    match requested with
    | [] => ret []
    | tc :: rest =>
        match py_eval (RawToolCall.arguments tc) with
        | None => raise (OtherError "eval")
        | Some parameters =>
            tool_calls <- collect_tool_calls rest ;;
            ret (ToolCall.mk (RawToolCall.name tc) parameters :: tool_calls)
        end
    end.


Definition call_ai_agent (user_message user_id : string)
    : M (option string * list ToolCall.t) :=
    emit (EvAgent user_message user_id) ;;;
    try_
      (let openai_api_key := getenv "OPENAI_API_KEY" in
       if negb (Py.truthy_str openai_api_key) then
         let '(text, tool_calls) := get_fallback_response user_message user_id in
         ret (Some text, tool_calls)
       else
         let key := match openai_api_key with Some key => key | None => EmptyString end in
         match post_chat_completions key user_message with
         | ReplyRaises => raise (OtherError "httpx")
         | ReplyMessage requested content =>
             if Py.truthy_list requested then
               tool_calls <- collect_tool_calls
                               (match requested with Some l => l | None => [] end) ;;
               match tool_calls with
               | [] => raise (OtherError "IndexError")
               | first :: _ =>
                   tool_response <- execute_tool first user_id ;;
                   ret (Some tool_response, tool_calls)
               end
             else ret (content, [])
         end)
      (fun e =>
         let '(text, tool_calls) := get_fallback_response user_message user_id in
         ret (Some text, tool_calls)).

Definition chat (user_id : string) (request : ChatRequest.t) : M ChatResponse.t :=
    try_
      ((* 1. Get or create conversation *)
       conversation_id <-
         (if negb (Py.truthy_int (ChatRequest.conversation_id request)) then
            uid <- int user_id ;;
            created <- utcnow ;;
            updated <- utcnow ;;
            conversation <- insert_conversation (fun rowid =>
                              Conversation.mk rowid uid created updated) ;;
            ret (Conversation.id conversation)
          else
            let conversation_id :=
              match ChatRequest.conversation_id request with
              | Some key => key
              | None => 0
              end in
            found <- query (fun d =>
                       Table.get Conversation.id (conversations d) conversation_id) ;;
            match found with
            | None => raise (HTTPException NotFound (Text "Conversation not found"))
            | Some conversation =>
                now <- utcnow ;;
                save_conversation
                  (Conversation.mk (Conversation.id conversation)
                     (Conversation.user_id conversation)
                     (Conversation.created_at conversation) now) ;;;
                ret conversation_id
            end) ;;
       (* 2. Store user message in database *)
       uid <- int user_id ;;
       now <- utcnow ;;
       insert_message (fun rowid =>
         Message.mk rowid uid conversation_id "user"
           (ChatRequest.message request) now) ;;;
       (* 3. Call the agent *)
       answer <- call_ai_agent (ChatRequest.message request) user_id ;;
       let '(ai_response, tool_calls) := answer in
       (* 4. Store AI response in database *)
       uid <- int user_id ;;
       now <- utcnow ;;
       match ai_response with
       | None => raise (IntegrityError "messages.content")
       | Some content =>
           insert_message (fun rowid =>
             Message.mk rowid uid conversation_id "assistant" content now) ;;;
           (* 5. Return response *)
           ret (ChatResponse.mk conversation_id content tool_calls)
       end)
      reraise_or_rollback.

(** One of [words] occurs in [text] as a substring. *)
Definition occurs (words : list string) (text : string) : Prop :=
  exists word before after,
    In word words /\ text = before +++ word +++ after.

(** *** app/main.py *)

(** The routes registered on the application, each with its body. *)
Inductive Request :=
| POST_auth_signup (body : SignupRequest.t)
| POST_auth_login (body : LoginRequest.t)
| POST_chat (user_id : string) (body : ChatRequest.t)
| POST_mcp_add_task (body : AddTaskInput.t)
| POST_mcp_list_tasks (body : ListTasksInput.t)
| POST_mcp_complete_task (body : CompleteTaskInput.t)
| POST_mcp_delete_task (body : DeleteTaskInput.t)
| POST_mcp_update_task (body : UpdateTaskInput.t)
| GET_root
| GET_health.

(** What a route answers with. *)
Inductive Body :=
| AuthBody (response : AuthResponse.t)
| ChatBody (response : ChatResponse.t)
| ToolBody (result : ToolResult.t)
| ListBody (entries : list TaskSummary.t)
| RootBody (message version docs : string)
| HealthBody (status : string).

Definition root : M Body :=
  ret (RootBody "Todo AI Chatbot API" "1.0.0" "/docs").

Definition health_check : M Body :=
  ret (HealthBody "healthy").

(** The application: the routers of [auth], [chat] and [tasks] under
    their prefixes, and the two endpoints of [main]. *)
Definition app (request : Request) : M Body :=
  match request with
  | POST_auth_signup body => response <- signup body ;; ret (AuthBody response)
  | POST_auth_login body => response <- login body ;; ret (AuthBody response)
  | POST_chat user_id body => response <- chat user_id body ;; ret (ChatBody response)
  | POST_mcp_add_task body => result <- add_task body ;; ret (ToolBody result)
  | POST_mcp_list_tasks body => entries <- list_tasks body ;; ret (ListBody entries)
  | POST_mcp_complete_task body => result <- complete_task body ;; ret (ToolBody result)
  | POST_mcp_delete_task body => result <- delete_task body ;; ret (ToolBody result)
  | POST_mcp_update_task body => result <- update_task body ;; ret (ToolBody result)
  | GET_root => root
  | GET_health => health_check
  end.

(** Requests served one after the other, each to completion. *)
Fixpoint serve (requests : list Request) (w : World) : World :=
  match requests with
  | [] => w
  | request :: rest => serve rest (snd (app request w))
  end.

(** One committed write, as the handlers make them. *)
Inductive db_step : Db -> Db -> Prop :=
| step_insert_user (d : Db) (rows : list User.t) (user : User.t) :
    rows = users d ->
    User.id user = Table.next_rowid User.id rows ->
    (forall other, In other rows -> User.email other <> User.email user) ->
    db_step d (set_users (fun _ => rows ++ [user]) d)
| step_insert_task (d : Db) (rows : list Task.t) (task : Task.t) :
    rows = tasks d ->
    Task.id task = Table.next_rowid Task.id rows ->
    db_step d (set_tasks (fun _ => rows ++ [task]) d)
| step_replace_task (d : Db) (old task : Task.t) :
    Table.get Task.id (tasks d) (Task.id task) = Some old ->
    db_step d (set_tasks (Table.replace Task.id task) d)
| step_remove_task (d : Db) (key : Z) :
    db_step d (set_tasks (Table.remove Task.id key) d)
| step_insert_conversation (d : Db) (rows : list Conversation.t)
    (conversation : Conversation.t) :
    rows = conversations d ->
    Conversation.id conversation = Table.next_rowid Conversation.id rows ->
    db_step d (set_conversations (fun _ => rows ++ [conversation]) d)
| step_replace_conversation (d : Db) (old conversation : Conversation.t) :
    Table.get Conversation.id (conversations d) (Conversation.id conversation)
    = Some old ->
    db_step d (set_conversations (Table.replace Conversation.id conversation) d)
| step_insert_message (d : Db) (rows : list Message.t) (message : Message.t)
    (conversation : Conversation.t) :
    rows = messages d ->
    Message.id message = Table.next_rowid Message.id rows ->
    Table.get Conversation.id (conversations d) (Message.conversation_id message)
    = Some conversation ->
    db_step d (set_messages (fun _ => rows ++ [message]) d).

(** Any number of committed writes. *)
Definition db_steps : Db -> Db -> Prop := clos_refl_trans Db db_step.

(** Every rowid in use is positive. *)
Definition rowids_positive (d : Db) : Prop :=
  Forall (fun user => 0 < User.id user) (users d) /\
  Forall (fun task => 0 < Task.id task) (tasks d) /\
  Forall (fun conversation => 0 < Conversation.id conversation) (conversations d) /\
  Forall (fun message => 0 < Message.id message) (messages d).

(** No two users share an email. *)
Definition emails_unique (d : Db) : Prop :=
  NoDup (map User.email (users d)).

(** Every message belongs to a stored conversation. *)
Definition messages_linked (d : Db) : Prop :=
  forall message,
    In message (messages d) ->
    exists conversation,
      In conversation (conversations d) /\
      Conversation.id conversation = Message.conversation_id message.

(** ** Facts about tables *)

Section TableFacts.
Context {R : Type} (rid : R -> Z).

Lemma get_some (rows : list R) (key : Z) (r : R) :
  Table.get rid rows key = Some r -> rid r = key /\ In r rows.
Proof.
  unfold Table.get. intros H.
  destruct (find_some _ _ H) as [Hin Heq].
  apply Z.eqb_eq in Heq. auto.
Qed.

Lemma get_none (rows : list R) (key : Z) (r : R) :
  Table.get rid rows key = None -> In r rows -> rid r <> key.
Proof.
  unfold Table.get. intros H Hin Heq.
  apply (find_none _ _ H) in Hin. apply Z.eqb_neq in Hin. contradiction.
Qed.

Lemma get_replace_same (rows : list R) (r r' : R) :
  Table.get rid rows (rid r') = Some r ->
  Table.get rid (Table.replace rid r' rows) (rid r') = Some r'.
Proof.
  unfold Table.get, Table.replace.
  induction rows as [|x rows IH]; simpl; [discriminate|].
  destruct (Z.eqb (rid x) (rid r')) eqn:E.
  - intros _. rewrite Z.eqb_refl. reflexivity.
  - rewrite E. exact IH.
Qed.

Lemma get_replace_other (rows : list R) (r' : R) (key : Z) :
  key <> rid r' ->
  Table.get rid (Table.replace rid r' rows) key = Table.get rid rows key.
Proof.
  unfold Table.get, Table.replace. intros Hne.
  induction rows as [|x rows IH]; simpl; [reflexivity|].
  destruct (Z.eqb (rid x) (rid r')) eqn:E.
  - apply Z.eqb_eq in E.
    assert (Z.eqb (rid r') key = false) as -> by (apply Z.eqb_neq; congruence).
    assert (Z.eqb (rid x) key = false) as -> by (apply Z.eqb_neq; congruence).
    exact IH.
  - destruct (Z.eqb (rid x) key); [reflexivity | exact IH].
Qed.

Lemma map_rid_replace (rows : list R) (r' : R) :
  map rid (Table.replace rid r' rows) = map rid rows.
Proof.
  unfold Table.replace. induction rows as [|x rows IH]; simpl; [reflexivity|].
  rewrite IH. destruct (Z.eqb (rid x) (rid r')) eqn:E; [|reflexivity].
  apply Z.eqb_eq in E. congruence.
Qed.

Lemma fold_max_ge_init (l : list Z) (a : Z) : a <= fold_left Z.max l a.
Proof.
  revert a. induction l as [|x l IH]; simpl; intros a; [lia|].
  specialize (IH (Z.max a x)). lia.
Qed.

Lemma fold_max_ge_member (l : list Z) (a x : Z) :
  In x l -> x <= fold_left Z.max l a.
Proof.
  revert a. induction l as [|y l IH]; simpl; intros a; [tauto|].
  intros [-> | Hin].
  - pose proof (fold_max_ge_init l (Z.max a x)). lia.
  - apply IH, Hin.
Qed.

Lemma next_rowid_above (rows : list R) (r : R) :
  In r rows -> rid r < Table.next_rowid rid rows.
Proof.
  destruct rows as [|x rows]; unfold Table.next_rowid; cbn [In]; [tauto|].
  intros [-> | Hin].
  - pose proof (fold_max_ge_init (map rid rows) (rid r)). lia.
  - pose proof (fold_max_ge_member (map rid rows) (rid x) (rid r) (in_map rid _ _ Hin)).
    lia.
Qed.

Lemma get_app_fresh (rows : list R) (r : R) :
  (forall x, In x rows -> rid x <> rid r) ->
  Table.get rid (rows ++ [r]) (rid r) = Some r.
Proof.
  unfold Table.get. induction rows as [|x rows IH]; simpl; intros Hfresh.
  - rewrite Z.eqb_refl. reflexivity.
  - assert (Z.eqb (rid x) (rid r) = false) as ->
      by (apply Z.eqb_neq, Hfresh; auto).
    apply IH. intros y Hy. apply Hfresh. auto.
Qed.

Lemma get_app_old (rows : list R) (r : R) (key : Z) :
  key <> rid r ->
  Table.get rid (rows ++ [r]) key = Table.get rid rows key.
Proof.
  unfold Table.get. intros Hne.
  induction rows as [|x rows IH]; simpl.
  - assert (Z.eqb (rid r) key = false) as -> by (apply Z.eqb_neq; congruence).
    reflexivity.
  - destruct (Z.eqb (rid x) key); [reflexivity | exact IH].
Qed.

Lemma sorted_app_above (rows : list R) (r : R) :
  Table.sorted rid rows ->
  (forall x, In x rows -> rid x < rid r) ->
  Table.sorted rid (rows ++ [r]).
Proof.
  unfold Table.sorted. induction rows as [|x rows IH]; simpl; intros Hs Hlt.
  - constructor; constructor.
  - apply StronglySorted_inv in Hs. destruct Hs as [Hs Hall].
    constructor.
    + apply IH; auto.
    + rewrite map_app. apply Forall_app. split; [exact Hall|].
      constructor; [|constructor]. apply Hlt. auto.
Qed.

Lemma sorted_replace (rows : list R) (r' : R) :
  Table.sorted rid rows -> Table.sorted rid (Table.replace rid r' rows).
Proof.
  unfold Table.sorted. rewrite map_rid_replace. auto.
Qed.

Lemma sorted_filter (keep : R -> bool) (rows : list R) :
  Table.sorted rid rows -> Table.sorted rid (filter keep rows).
Proof.
  unfold Table.sorted. induction rows as [|x rows IH]; simpl; intros Hs; [exact Hs|].
  apply StronglySorted_inv in Hs. destruct Hs as [Hs Hall].
  destruct (keep x); simpl; [|auto].
  constructor; [auto|].
  rewrite Forall_forall in *. intros y Hy.
  apply in_map_iff in Hy. destruct Hy as (z & <- & Hz).
  apply filter_In in Hz. apply Hall, in_map, Hz.
Qed.

End TableFacts.


(** ** The task tools *)

Ltac run :=
  unfold try_, bind, query, commit, emit, ret, raise, int, utcnow, rollback,
    raise_internal, reraise_or_rollback, save_task, remove_task, insert_task;
  cbn.


(** C7. A successful [update_task] overwrites the title and the
    description exactly where the request supplies them (an empty string
    is a supplied value, only None leaves the field alone), stamps
    [updated_at] with the current clock reading, and changes nothing else:
    the other fields of the task, every other task and the other tables
    stay as they were. *)
Theorem update_task_overwrites_supplied_fields
    (input : UpdateTaskInput.t) (w w' : World) (result : ToolResult.t) :
  update_task input w = (Return result, w') ->
  exists old new : Task.t,
    Table.get Task.id (tasks (db w)) (UpdateTaskInput.task_id input) = Some old /\
    Table.get Task.id (tasks (db w')) (UpdateTaskInput.task_id input) = Some new /\
    Task.title new =
      match UpdateTaskInput.title input with
      | Some title => title
      | None => Task.title old
      end /\
    Task.description new =
      match UpdateTaskInput.description input with
      | Some description => Some description
      | None => Task.description old
      end /\
    (UpdateTaskInput.title input = Some EmptyString -> Task.title new = EmptyString) /\
    (UpdateTaskInput.description input = Some EmptyString -> Task.description new = Some EmptyString) /\
    Task.id new = Task.id old /\
    Task.user_id new = Task.user_id old /\
    Task.completed new = Task.completed old /\
    Task.created_at new = Task.created_at old /\
    Task.updated_at new = clock (ticks w) /\
    (forall key, key <> UpdateTaskInput.task_id input ->
       Table.get Task.id (tasks (db w')) key = Table.get Task.id (tasks (db w)) key) /\
    users (db w') = users (db w) /\
    conversations (db w') = conversations (db w) /\
    messages (db w') = messages (db w) /\
    result = ToolResult.mk (UpdateTaskInput.task_id input) "updated" (Task.title new).
Proof.
  unfold update_task. run.
  destruct (Table.get Task.id (tasks (db w)) (UpdateTaskInput.task_id input))
    as [old|] eqn:Hget; cbn; [|discriminate].
  destruct (py_int (UpdateTaskInput.user_id input)) as [uid|]; cbn; [|discriminate].
  destruct (Z.eqb (Task.user_id old) uid); cbn; [|discriminate].
  intros H. injection H as <- <-. cbn.
  destruct (get_some Task.id _ _ _ Hget) as [Hid _].
  pose proof Hget as Hget'. rewrite <- Hid in Hget'.
  match goal with
  | |- context [Table.replace Task.id ?t _] => set (new := t)
  end.
  exists old, new. split; [reflexivity|].
  split.
  { rewrite <- Hid.
    exact (get_replace_same Task.id (tasks (db w)) old new Hget'). }
  cbn. repeat split; try congruence.
  - intros ->. reflexivity.
  - intros ->. reflexivity.
  - intros key Hne. apply get_replace_other. cbn. congruence.
Qed.

(** C9. After a successful [complete_task], the same request succeeds
    again with the same answer, and the task is flagged completed after
    the first call and after the second. *)
Theorem complete_task_twice
    (input : CompleteTaskInput.t) (w w1 : World) (result : ToolResult.t) :
  complete_task input w = (Return result, w1) ->
  exists (w2 : World) (once twice : Task.t),
    complete_task input w1 = (Return result, w2) /\
    Table.get Task.id (tasks (db w1)) (CompleteTaskInput.task_id input) = Some once /\
    Task.completed once = true /\
    Table.get Task.id (tasks (db w2)) (CompleteTaskInput.task_id input) = Some twice /\
    Task.completed twice = true.
Proof.
  unfold complete_task at 1. run.
  destruct (Table.get Task.id (tasks (db w)) (CompleteTaskInput.task_id input))
    as [task|] eqn:Hget; cbn; [|discriminate].
  destruct (py_int (CompleteTaskInput.user_id input)) as [uid|] eqn:Hint;
    cbn; [|discriminate].
  destruct (Z.eqb (Task.user_id task) uid) eqn:Howner; cbn; [|discriminate].
  intros H. injection H as <- <-.
  destruct (get_some Task.id _ _ _ Hget) as [Hid _].
  set (once := Task.mk (Task.id task) (Task.user_id task) (Task.title task)
                 (Task.description task) true (Task.created_at task) (clock (ticks w))).
  assert (Hget1 : Table.get Task.id (Table.replace Task.id once (tasks (db w)))
                    (CompleteTaskInput.task_id input) = Some once).
  { rewrite <- Hid.
    apply (get_replace_same Task.id (tasks (db w)) task once).
    cbn. rewrite Hid. exact Hget. }
  set (twice := Task.mk (Task.id task) (Task.user_id task) (Task.title task)
                  (Task.description task) true (Task.created_at task)
                  (clock (S (ticks w)))).
  eexists _, once, twice.
  split.
  { unfold complete_task. run. rewrite Hget1. cbn.
    rewrite Hint. cbn. rewrite Howner. cbn. reflexivity. }
  cbn. split; [exact Hget1|]. split; [reflexivity|]. split; [|reflexivity].
  rewrite <- Hid.
  apply (get_replace_same Task.id _ once twice).
  cbn. rewrite Hid. exact Hget1.
Qed.


(** ** Token issuance *)

(** C4. A token returned by [signup] or [login] is the encoding, under the
    configured secret, of the claims [sub], the decimal rendering of the id
    of the user now stored, and [exp], the clock reading taken by
    [create_access_token] itself: the expiry is the time of issuance. *)
Theorem issued_token_expires_at_issuance (w w' : World) (response : AuthResponse.t) :
  (exists request, signup request w = (Return response, w')) \/
  (exists request, login request w = (Return response, w')) ->
  exists (user : User.t) (issuance : World),
    In user (users (db w')) /\
    UserSummary.id (AuthResponse.user response) = User.id user /\
    create_access_token (Py.str (User.id user)) issuance
    = (Return (AuthResponse.token response), w') /\
    AuthResponse.token response
    = jwt_encode (Payload.mk (Py.str (User.id user)) (clock (ticks issuance)))
        SECRET_KEY ALGORITHM.
Proof.
  intros [[request H] | [request H]].
  - revert H. unfold signup, first_user_by_email, insert_user, create_access_token.
    run.
    destruct (find _ (users (db w))) as [existing|]; cbn; [discriminate|].
    intros H. injection H as <- <-. cbn.
    eexists _, (mkWorld _ _ _). split; [|split; [|split]].
    + apply in_or_app. right. left. reflexivity.
    + reflexivity.
    + reflexivity.
    + reflexivity.
  - revert H. unfold login, first_user_by_email, create_access_token. run.
    destruct (find _ (users (db w))) as [user|] eqn:Hfind; cbn; [|discriminate].
    destruct (pwd_verify _ _); cbn; [|discriminate].
    intros H. injection H as <- <-. cbn.
    exists user, w. split; [|split; [|split]]; try reflexivity.
    apply (find_some _ _ Hfind).
Qed.

(** ** The intent resolver *)



Lemma truthy_key (key : string) : key <> EmptyString -> Py.truthy_str (Some key) = true.
Proof. destruct key; [congruence | reflexivity]. Qed.


(** Building the list of tool calls does not touch the world. *)
Lemma collect_tool_calls_pure (requested : list RawToolCall.t) (w : World) :
  exists o, collect_tool_calls requested w = (o, w).
Proof.
  induction requested as [|tc requested IH]; cbn.
  - eexists. reflexivity.
  - destruct (py_eval _); [|eexists; reflexivity].
    unfold bind. destruct IH as [o ->].
    destruct o; eexists; reflexivity.
Qed.

(** Whatever the service does, the resolver returns, and the only mark it
    leaves on the world is its own invocation. *)
Lemma call_ai_agent_returns (user_message user_id : string) (w : World) :
  exists answer,
    call_ai_agent user_message user_id w
    = (Return answer, agent_entered user_message user_id w).
Proof.
  unfold call_ai_agent. unfold bind at 1. unfold emit at 1. unfold try_.
  fold (agent_entered user_message user_id w).
  generalize (agent_entered user_message user_id w). intros v.
  destruct (get_fallback_response user_message user_id) as [text calls] eqn:Hfallback.
  destruct (negb (Py.truthy_str (getenv "OPENAI_API_KEY"))).
  { eexists. reflexivity. }
  destruct (post_chat_completions _ user_message) as [|requested content].
  { eexists. reflexivity. }
  destruct (Py.truthy_list requested).
  2: { eexists. reflexivity. }
  unfold bind at 1.
  destruct (collect_tool_calls_pure
              (match requested with Some l => l | None => [] end) v) as [o ->].
  destruct o as [[|first others]|e]; eexists; reflexivity.
Qed.


(** ** The chat turn *)

#[local] Arguments call_ai_agent : simpl never.

Ltac run_chat :=
  unfold chat, insert_message, insert_conversation, save_conversation; run.

Ltac resolve_agent text calls :=
  match goal with
  | |- context [call_ai_agent ?m ?u ?v] =>
      let H := fresh "Hagent" in
      destruct (call_ai_agent_returns m u v) as [[text calls] H];
      rewrite H; unfold agent_entered; cbn
  end.

(** C3. A chat turn that succeeds appends exactly two messages, both in
    the conversation it reports: the user's text with role "user", then the
    answer with role "assistant".  The trace shows the commit that stores
    the user message, then the invocation of the resolver, then the commit
    that stores the answer; the commits before them leave the messages
    alone. *)
Theorem chat_appends_user_then_assistant
    (user_id : string) (request : ChatRequest.t) (w w' : World)
    (response : ChatResponse.t) :
  chat user_id request w = (Return response, w') ->
  exists (uid asked_id asked_at answered_id answered_at : Z)
         (before : list Event) (stored : Db),
    let asked :=
      Message.mk asked_id uid (ChatResponse.conversation_id response) "user"
        (ChatRequest.message request) asked_at in
    let answered :=
      Message.mk answered_id uid (ChatResponse.conversation_id response) "assistant"
        (ChatResponse.response response) answered_at in
    py_int user_id = Some uid /\
    messages (db w') = messages (db w) ++ [asked; answered] /\
    messages stored = messages (db w) ++ [asked] /\
    trace w' = trace w ++ before ++
                 [EvCommit stored;
                  EvAgent (ChatRequest.message request) user_id;
                  EvCommit (db w')] /\
    (forall ev, In ev before ->
       exists d, ev = EvCommit d /\ messages d = messages (db w)) /\
    (exists conversation,
       Table.get Conversation.id (conversations (db w'))
         (ChatResponse.conversation_id response) = Some conversation).
Proof.
  run_chat.
  destruct (Py.truthy_int (ChatRequest.conversation_id request)); cbn.
  - destruct (Table.get Conversation.id (conversations (db w)) _)
      as [conversation|] eqn:Hget; cbn; [|discriminate].
    destruct (py_int user_id) as [uid|]; cbn; [|discriminate].
    resolve_agent text calls.
    destruct text as [text|]; cbn; [|discriminate].
    intros H. injection H as <- <-. cbn.
    exists uid. do 4 eexists. eexists [EvCommit _]. eexists. cbn.
    split; [reflexivity|].
    split; [rewrite <- app_assoc; reflexivity|].
    split; [|split; [rewrite <- !app_assoc; reflexivity|]].
    1: reflexivity.
    split.
    + intros ev [<- | []]. eexists. split; reflexivity.
    + destruct (get_some Conversation.id _ _ _ Hget) as [Hid _].
      rewrite <- Hid in Hget |- *. eexists.
      exact (get_replace_same Conversation.id _ conversation
               (Conversation.mk (Conversation.id conversation) _ _ _) Hget).
  - destruct (py_int user_id) as [uid|]; cbn; [|discriminate].
    resolve_agent text calls.
    destruct text as [text|]; cbn; [|discriminate].
    intros H. injection H as <- <-. cbn.
    exists uid. do 4 eexists. eexists [EvCommit _]. eexists. cbn.
    split; [reflexivity|].
    split; [rewrite <- app_assoc; reflexivity|].
    split; [|split; [rewrite <- !app_assoc; reflexivity|]].
    1: reflexivity.
    split.
    + intros ev [<- | []]. eexists. split; reflexivity.
    + eexists.
      apply (get_app_fresh Conversation.id (conversations (db w))
               (Conversation.mk _ _ _ _)).
      cbn. intros x Hx.
      pose proof (next_rowid_above Conversation.id _ _ Hx). lia.
Qed.



(** ** The rowid invariant *)

Lemma db_wf_insert_user (d : Db) (rows : list User.t) (row : User.t) :
  rows = users d ->
  User.id row = Table.next_rowid User.id rows -> db_wf d ->
  db_wf (set_users (fun _ => rows ++ [row]) d).
Proof.
  intros -> Hnew (Hu & Ht & Hc & Hm). repeat split; cbn; auto.
  apply sorted_app_above; [exact Hu|].
  intros x Hx. rewrite Hnew. apply next_rowid_above, Hx.
Qed.

Lemma db_wf_insert_task (d : Db) (rows : list Task.t) (row : Task.t) :
  rows = tasks d ->
  Task.id row = Table.next_rowid Task.id rows -> db_wf d ->
  db_wf (set_tasks (fun _ => rows ++ [row]) d).
Proof.
  intros -> Hnew (Hu & Ht & Hc & Hm). repeat split; cbn; auto.
  apply sorted_app_above; [exact Ht|].
  intros x Hx. rewrite Hnew. apply next_rowid_above, Hx.
Qed.

Lemma db_wf_insert_conversation (d : Db) (rows : list Conversation.t) (row : Conversation.t) :
  rows = conversations d ->
  Conversation.id row = Table.next_rowid Conversation.id rows -> db_wf d ->
  db_wf (set_conversations (fun _ => rows ++ [row]) d).
Proof.
  intros -> Hnew (Hu & Ht & Hc & Hm). repeat split; cbn; auto.
  apply sorted_app_above; [exact Hc|].
  intros x Hx. rewrite Hnew. apply next_rowid_above, Hx.
Qed.

Lemma db_wf_insert_message (d : Db) (rows : list Message.t) (row : Message.t) :
  rows = messages d ->
  Message.id row = Table.next_rowid Message.id rows -> db_wf d ->
  db_wf (set_messages (fun _ => rows ++ [row]) d).
Proof.
  intros -> Hnew (Hu & Ht & Hc & Hm). repeat split; cbn; auto.
  apply sorted_app_above; [exact Hm|].
  intros x Hx. rewrite Hnew. apply next_rowid_above, Hx.
Qed.

Lemma db_wf_replace_task (d : Db) (task : Task.t) :
  db_wf d -> db_wf (set_tasks (Table.replace Task.id task) d).
Proof.
  intros (Hu & Ht & Hc & Hm). repeat split; cbn; auto using sorted_replace.
Qed.

Lemma db_wf_remove_task (d : Db) (key : Z) :
  db_wf d -> db_wf (set_tasks (Table.remove Task.id key) d).
Proof.
  intros (Hu & Ht & Hc & Hm). repeat split; cbn; auto.
  unfold Table.remove. apply sorted_filter, Ht.
Qed.

Lemma db_wf_replace_conversation (d : Db) (conversation : Conversation.t) :
  db_wf d -> db_wf (set_conversations (Table.replace Conversation.id conversation) d).
Proof.
  intros (Hu & Ht & Hc & Hm). repeat split; cbn; auto using sorted_replace.
Qed.

Lemma db_wf_empty : db_wf empty_db.
Proof. repeat split; constructor. Qed.

Ltac wf :=
  repeat first
    [ assumption
    | apply db_wf_insert_message; [reflexivity|reflexivity|]
    | apply db_wf_insert_conversation; [reflexivity|reflexivity|]
    | apply db_wf_insert_task; [reflexivity|reflexivity|]
    | apply db_wf_insert_user; [reflexivity|reflexivity|]
    | apply db_wf_replace_task
    | apply db_wf_remove_task
    | apply db_wf_replace_conversation ].

(** Every task tool keeps the rowids of every table increasing, whether it
    answers or raises. *)
Lemma task_tools_preserve_rowid_order (w : World) :
  db_wf (db w) ->
  (forall input, db_wf (db (snd (add_task input w)))) /\
  (forall input, db_wf (db (snd (list_tasks input w)))) /\
  (forall input, db_wf (db (snd (complete_task input w)))) /\
  (forall input, db_wf (db (snd (delete_task input w)))) /\
  (forall input, db_wf (db (snd (update_task input w)))).
Proof.
  intros Hw. split; [|split; [|split; [|split]]]; intros input.
  - unfold add_task. run.
    destruct (py_int _); cbn; wf.
  - unfold list_tasks. run.
    destruct (py_int _); cbn; wf.
  - unfold complete_task. run.
    destruct (Table.get _ _ _); cbn; [|wf].
    destruct (py_int _); cbn; [|wf].
    destruct (Z.eqb _ _); cbn; wf.
  - unfold delete_task. run.
    destruct (Table.get _ _ _); cbn; [|wf].
    destruct (py_int _); cbn; [|wf].
    destruct (Z.eqb _ _); cbn; wf.
  - unfold update_task. run.
    destruct (Table.get _ _ _); cbn; [|wf].
    destruct (py_int _); cbn; [|wf].
    destruct (Z.eqb _ _); cbn; wf.
Qed.

(** So do the chat turn, signup and login. *)
Lemma chat_and_auth_preserve_rowid_order (w : World) :
  db_wf (db w) ->
  (forall user_id request, db_wf (db (snd (chat user_id request w)))) /\
  (forall request, db_wf (db (snd (signup request w)))) /\
  (forall request, db_wf (db (snd (login request w)))).
Proof.
  intros Hw. split; [|split]; intros.
  - run_chat.
    destruct (Py.truthy_int _); cbn.
    + destruct (Table.get _ _ _); cbn; [|wf].
      destruct (py_int _); cbn; [|wf].
      resolve_agent text calls.
      destruct text; cbn; wf.
    + destruct (py_int _); cbn; [|wf].
      resolve_agent text calls.
      destruct text; cbn; wf.
  - unfold signup, first_user_by_email, insert_user, create_access_token. run.
    destruct (find _ _); cbn; wf.
  - unfold login, first_user_by_email, create_access_token. run.
    destruct (find _ _); cbn; [|wf].
    destruct (pwd_verify _ _); cbn; wf.
Qed.

(** Adding a task appends it after every task already stored, under a
    rowid larger than all of theirs: table order is creation order. *)
Lemma add_task_appends (input : AddTaskInput.t) (w w' : World) (result : ToolResult.t) :
  add_task input w = (Return result, w') ->
  exists task,
    tasks (db w') = tasks (db w) ++ [task] /\
    Task.id task = ToolResult.task_id result /\
    Task.title task = AddTaskInput.title input /\
    Task.completed task = false /\
    py_int (AddTaskInput.user_id input) = Some (Task.user_id task) /\
    (forall other, In other (tasks (db w)) -> Task.id other < Task.id task) /\
    (Table.sorted Task.id (tasks (db w)) -> Table.sorted Task.id (tasks (db w'))).
Proof.
  unfold add_task. run.
  destruct (py_int (AddTaskInput.user_id input)) as [uid|]; cbn; [|discriminate].
  intros H. injection H as <- <-. cbn.
  eexists. split; [reflexivity|]. cbn.
  repeat split.
  - intros other Hin. apply (next_rowid_above Task.id _ _ Hin).
  - intros Hs. apply sorted_app_above; [exact Hs|].
    intros x Hx. cbn. apply (next_rowid_above Task.id _ _ Hx).
Qed.

(** ** More on the task tools *)

Ltac run_in H :=
  unfold try_, bind, query, commit, emit, ret, raise, int, utcnow, rollback,
    raise_internal, reraise_or_rollback, save_task, remove_task, insert_task in H;
  cbn in H.

Section MoreTableFacts.
Context {R : Type} (rid : R -> Z).

Lemma get_remove_same (rows : list R) (key : Z) :
  Table.get rid (Table.remove rid key rows) key = None.
Proof.
  unfold Table.get, Table.remove.
  induction rows as [|x rows IH]; cbn; [reflexivity|].
  destruct (Z.eqb (rid x) key) eqn:E; cbn; [exact IH|].
  rewrite E. exact IH.
Qed.

Lemma get_remove_other (rows : list R) (key other : Z) :
  other <> key ->
  Table.get rid (Table.remove rid key rows) other = Table.get rid rows other.
Proof.
  unfold Table.get, Table.remove. intros Hne.
  induction rows as [|x rows IH]; cbn; [reflexivity|].
  destruct (Z.eqb (rid x) key) eqn:E; cbn.
  - apply Z.eqb_eq in E.
    assert (Z.eqb (rid x) other = false) as -> by (apply Z.eqb_neq; congruence).
    exact IH.
  - destruct (Z.eqb (rid x) other); [reflexivity | exact IH].
Qed.

Lemma in_replace (rows : list R) (r r' : R) :
  In r (Table.replace rid r' rows) ->
  r = r' \/ (In r rows /\ rid r <> rid r').
Proof.
  unfold Table.replace. rewrite in_map_iff. intros (x & Hx & Hin).
  destruct (Z.eqb (rid x) (rid r')) eqn:E.
  - left. congruence.
  - right. subst x. split; [exact Hin|]. apply Z.eqb_neq, E.
Qed.

Lemma in_replace_new (rows : list R) (r r' : R) :
  Table.get rid rows (rid r') = Some r -> In r' (Table.replace rid r' rows).
Proof.
  intros Hget. destruct (get_some rid _ _ _ Hget) as [Hid Hin].
  unfold Table.replace. apply in_map_iff. exists r. split; [|exact Hin].
  apply Z.eqb_eq in Hid. rewrite Hid. reflexivity.
Qed.

Lemma sorted_unique (rows : list R) (a b : R) :
  Table.sorted rid rows -> In a rows -> In b rows -> rid a = rid b -> a = b.
Proof.
  unfold Table.sorted. induction rows as [|x rows IH]; cbn; [intros _ []|].
  intros Hs Ha Hb Heq. apply StronglySorted_inv in Hs. destruct Hs as [Hs Hall].
  rewrite Forall_forall in Hall.
  destruct Ha as [<- | Ha], Hb as [<- | Hb].
  - reflexivity.
  - pose proof (Hall _ (in_map rid _ _ Hb)). lia.
  - pose proof (Hall _ (in_map rid _ _ Ha)). lia.
  - apply IH; assumption.
Qed.

Lemma filter_replace_hidden (keep : R -> bool) (rows : list R) (r' : R) :
  keep r' = false ->
  (forall r, In r rows -> rid r = rid r' -> keep r = false) ->
  filter keep (Table.replace rid r' rows) = filter keep rows.
Proof.
  unfold Table.replace. intros Hnew Hold.
  induction rows as [|x rows IH]; cbn; [reflexivity|].
  rewrite IH by (intros r Hr; apply Hold; right; exact Hr).
  destruct (Z.eqb (rid x) (rid r')) eqn:E; [|reflexivity].
  apply Z.eqb_eq in E. rewrite Hnew, (Hold x) by (auto; left; reflexivity).
  reflexivity.
Qed.

Lemma filter_remove_hidden (keep : R -> bool) (rows : list R) (key : Z) :
  (forall r, In r rows -> rid r = key -> keep r = false) ->
  filter keep (Table.remove rid key rows) = filter keep rows.
Proof.
  unfold Table.remove. intros Hold.
  induction rows as [|x rows IH]; cbn; [reflexivity|].
  pose proof (IH (fun r Hr => Hold r (or_intror Hr))) as IH'.
  destruct (Z.eqb (rid x) key) eqn:E; cbn.
  - apply Z.eqb_eq in E. rewrite (Hold x (or_introl eq_refl) E). exact IH'.
  - rewrite IH'. reflexivity.
Qed.

End MoreTableFacts.

(** What [list_tasks] computes for a user id that [int()] accepts. *)
Lemma list_tasks_run (w : World) (user_id : string) (uid : Z) (status : option string) :
  py_int user_id = Some uid ->
  list_tasks (ListTasksInput.mk user_id status) w
  = (Return (map summary
               (filter (fun task =>
                          Z.eqb (Task.user_id task) uid && status_matches status task)
                  (tasks (db w)))), w).
Proof using py_int.
  intros Hint. unfold list_tasks. run. rewrite Hint. cbn.
  do 2 f_equal. f_equal.
  apply filter_ext. intros task. unfold status_matches.
  destruct status as [s|]; cbn.
  - destruct (String.eqb s "pending"); cbn.
    + destruct (Task.completed task); reflexivity.
    + destruct (String.eqb s "completed"); cbn.
      * destruct (Task.completed task); reflexivity.
      * rewrite andb_true_r. reflexivity.
  - rewrite andb_true_r. reflexivity.
Qed.

(** X1. The same [add_task] request sent again after a success succeeds
    again and stores a second task: both tasks are in the table, in the
    order of the calls, and the second task id is larger than the first. *)
Theorem add_task_twice_gives_two_tasks
    (input : AddTaskInput.t) (w w1 : World) (first : ToolResult.t) :
  add_task input w = (Return first, w1) ->
  exists (second : ToolResult.t) (w2 : World) (task1 task2 : Task.t),
    add_task input w1 = (Return second, w2) /\
    tasks (db w2) = tasks (db w) ++ [task1; task2] /\
    Task.id task1 = ToolResult.task_id first /\
    Task.id task2 = ToolResult.task_id second /\
    ToolResult.task_id first < ToolResult.task_id second /\
    Task.title task1 = AddTaskInput.title input /\
    Task.title task2 = AddTaskInput.title input.
Proof.
  unfold add_task at 1. run.
  destruct (py_int (AddTaskInput.user_id input)) as [uid|] eqn:Hint;
    cbn; [|discriminate].
  intros H. injection H as <- <-.
  do 4 eexists. split.
  { unfold add_task. run. rewrite Hint. cbn. reflexivity. }
  cbn. split; [rewrite <- app_assoc; reflexivity|].
  repeat split.
  match goal with
  | |- _ < Table.next_rowid Task.id (?rows ++ [?t]) =>
      apply (next_rowid_above Task.id (rows ++ [t]) t)
  end.
  apply in_or_app. right. left. reflexivity.
Qed.

(** X2. After a successful [add_task], the listing of the same user is
    the listing from before followed by the new task, except under the
    "completed" filter, where it is unchanged. *)
Theorem add_task_then_list_tasks
    (input : AddTaskInput.t) (w w1 : World) (result : ToolResult.t)
    (status : option string) :
  add_task input w = (Return result, w1) ->
  exists (before : list TaskSummary.t) (task : Task.t),
    list_tasks (ListTasksInput.mk (AddTaskInput.user_id input) status) w
    = (Return before, w) /\
    Task.id task = ToolResult.task_id result /\
    Task.title task = AddTaskInput.title input /\
    Task.description task = AddTaskInput.description input /\
    Task.completed task = false /\
    list_tasks (ListTasksInput.mk (AddTaskInput.user_id input) status) w1
    = (Return (before ++
               match status with
               | Some s => if String.eqb s "completed" then [] else [summary task]
               | None => [summary task]
               end), w1).
Proof.
  intros H. unfold add_task in H. run_in H.
  destruct (py_int (AddTaskInput.user_id input)) as [uid|] eqn:Hint;
    cbn in H; [|discriminate].
  injection H as <- <-.
  eexists.
  match goal with
  | |- context [tasks (db w) ++ [?t]] => exists t
  end.
  split; [apply (list_tasks_run _ _ uid _ Hint)|].
  do 4 (split; [reflexivity|]).
  rewrite (list_tasks_run _ _ uid _ Hint). cbn.
  rewrite filter_app, map_app. cbn. rewrite Z.eqb_refl. cbn.
  do 3 f_equal.
  destruct status as [s|]; cbn; [|reflexivity].
  destruct (String.eqb s "pending") eqn:Ep; cbn.
  - destruct (String.eqb s "completed") eqn:Ec; [|reflexivity].
    apply String.eqb_eq in Ep, Ec. subst s. discriminate.
  - destruct (String.eqb s "completed"); reflexivity.
Qed.

(** X3. A successful [complete_task] sets the completion flag and stamps
    [updated_at] with the current clock reading; the title, description,
    owner and creation time of the task, every other task, and the other
    tables stay as they were, and the answer carries the task's title. *)
Theorem complete_task_sets_only_the_flag
    (input : CompleteTaskInput.t) (w w' : World) (result : ToolResult.t) :
  complete_task input w = (Return result, w') ->
  exists old : Task.t,
    Table.get Task.id (tasks (db w)) (CompleteTaskInput.task_id input) = Some old /\
    Table.get Task.id (tasks (db w')) (CompleteTaskInput.task_id input)
    = Some (Task.mk (Task.id old) (Task.user_id old) (Task.title old)
              (Task.description old) true (Task.created_at old) (clock (ticks w))) /\
    (forall key, key <> CompleteTaskInput.task_id input ->
       Table.get Task.id (tasks (db w')) key = Table.get Task.id (tasks (db w)) key) /\
    users (db w') = users (db w) /\
    conversations (db w') = conversations (db w) /\
    messages (db w') = messages (db w) /\
    result = ToolResult.mk (CompleteTaskInput.task_id input) "completed" (Task.title old).
Proof.
  intros H. unfold complete_task in H. run_in H.
  destruct (Table.get Task.id (tasks (db w)) (CompleteTaskInput.task_id input))
    as [old|] eqn:Hget; cbn in H; [|discriminate].
  destruct (py_int (CompleteTaskInput.user_id input)) as [uid|]; cbn in H; [|discriminate].
  destruct (Z.eqb (Task.user_id old) uid); cbn in H; [|discriminate].
  injection H as <- <-.
  destruct (get_some Task.id _ _ _ Hget) as [Hid _].
  pose proof Hget as Hget'. rewrite <- Hid in Hget'.
  exists old. split; [reflexivity|]. cbn.
  split.
  { rewrite <- Hid.
    exact (get_replace_same Task.id (tasks (db w)) old (Task.mk (Task.id old) _ _ _ _ _ _)
             Hget'). }
  split.
  { intros key Hne. apply get_replace_other. cbn. congruence. }
  repeat split. rewrite Hid. reflexivity.
Qed.


(** X5. A successful [delete_task] removes the task and nothing else:
    its id no longer names a task, every other id names the task it named
    before, the other tables and the clock are untouched, and the answer
    carries the title of the removed task.  From then on [complete_task],
    [delete_task] and [update_task] on that id fail with NotFound (404)
    for every caller. *)
Theorem delete_task_removes_the_task
    (input : DeleteTaskInput.t) (w w' : World) (result : ToolResult.t) :
  delete_task input w = (Return result, w') ->
  exists old : Task.t,
    Table.get Task.id (tasks (db w)) (DeleteTaskInput.task_id input) = Some old /\
    result = ToolResult.mk (DeleteTaskInput.task_id input) "deleted" (Task.title old) /\
    Table.get Task.id (tasks (db w')) (DeleteTaskInput.task_id input) = None /\
    (forall key, key <> DeleteTaskInput.task_id input ->
       Table.get Task.id (tasks (db w')) key = Table.get Task.id (tasks (db w)) key) /\
    users (db w') = users (db w) /\
    conversations (db w') = conversations (db w) /\
    messages (db w') = messages (db w) /\
    ticks w' = ticks w /\
    (forall user_id,
        let gone := Raise (HTTPException NotFound (Text "Task not found")) in
        complete_task (CompleteTaskInput.mk user_id (DeleteTaskInput.task_id input)) w'
        = (gone, w') /\
        delete_task (DeleteTaskInput.mk user_id (DeleteTaskInput.task_id input)) w'
        = (gone, w') /\
        forall title description,
          update_task
            (UpdateTaskInput.mk user_id (DeleteTaskInput.task_id input) title description) w'
          = (gone, w')).
Proof.
  intros H. unfold delete_task in H. run_in H.
  destruct (Table.get Task.id (tasks (db w)) (DeleteTaskInput.task_id input))
    as [old|] eqn:Hget; cbn in H; [|discriminate].
  destruct (py_int (DeleteTaskInput.user_id input)) as [uid|]; cbn in H; [|discriminate].
  destruct (Z.eqb (Task.user_id old) uid); cbn in H; [|discriminate].
  injection H as <- <-.
  destruct (get_some Task.id _ _ _ Hget) as [Hid _].
  assert (Hgone : Table.get Task.id (Table.remove Task.id (Task.id old) (tasks (db w)))
                    (DeleteTaskInput.task_id input) = None).
  { rewrite <- Hid. apply get_remove_same. }
  exists old. split; [reflexivity|].
  split; [rewrite Hid; reflexivity|].
  split; [exact Hgone|].
  split.
  { intros key Hne. cbn. apply get_remove_other. congruence. }
  do 4 (split; [reflexivity|]).
  intros user_id gone.
  split; [|split]; intros;
    unfold complete_task, delete_task, update_task; run; rewrite Hgone; reflexivity.
Qed.


(** X7. [complete_task], [delete_task] and [update_task] succeed exactly
    when the task exists and [int(user_id)] is its owner. *)
Theorem task_tools_succeed_iff_owner (w : World) (user_id : string) (task_id : Z) :
  let owned :=
    exists task,
      Table.get Task.id (tasks (db w)) task_id = Some task /\
      py_int user_id = Some (Task.user_id task) in
  ((exists result w',
       complete_task (CompleteTaskInput.mk user_id task_id) w = (Return result, w'))
   <-> owned) /\
  ((exists result w',
       delete_task (DeleteTaskInput.mk user_id task_id) w = (Return result, w'))
   <-> owned) /\
  (forall title description,
      (exists result w',
          update_task (UpdateTaskInput.mk user_id task_id title description) w
          = (Return result, w'))
      <-> owned).
Proof.
  intros owned. unfold owned.
  split; [|split]; intros;
    unfold complete_task, delete_task, update_task; run;
    destruct (Table.get Task.id (tasks (db w)) task_id) as [task|]; cbn;
    try (split; [intros (r & v & H); discriminate
                | intros (t & H & _); discriminate]);
    destruct (py_int user_id) as [uid|]; cbn;
    try (split; [intros (r & v & H); discriminate
                | intros (t & _ & H); discriminate]);
    destruct (Z.eqb_spec (Task.user_id task) uid) as [Heq | Hne]; cbn;
    (split;
     [ intros (r & v & H); try discriminate; exists task; split; congruence
     | intros (t & Ht & Hu); try (do 2 eexists; reflexivity);
       exfalso; congruence ]).
Qed.

(** X8. With task ids unique (rowids increasing along the table), no
    call of [add_task], [complete_task], [delete_task] or [update_task]
    made under one user id changes what [list_tasks] answers, under any
    status filter, to a different user. *)
Theorem task_tools_keep_other_users_listing
    (w : World) (user_id other_id : string) (uid other : Z) (status : option string) :
  Table.sorted Task.id (tasks (db w)) ->
  py_int user_id = Some uid ->
  py_int other_id = Some other ->
  uid <> other ->
  let listing := fun v => fst (list_tasks (ListTasksInput.mk other_id status) v) in
  (forall title description,
      listing (snd (add_task (AddTaskInput.mk user_id title description) w)) = listing w) /\
  (forall task_id,
      listing (snd (complete_task (CompleteTaskInput.mk user_id task_id) w)) = listing w /\
      listing (snd (delete_task (DeleteTaskInput.mk user_id task_id) w)) = listing w /\
      forall title description,
        listing (snd (update_task (UpdateTaskInput.mk user_id task_id title description) w))
        = listing w).
Proof.
  intros Hsorted Hint Hother Hne listing. unfold listing.
  assert (Hrun : forall v,
             fst (list_tasks (ListTasksInput.mk other_id status) v)
             = Return (map summary
                         (filter (fun task =>
                                    Z.eqb (Task.user_id task) other
                                    && status_matches status task)
                            (tasks (db v)))))
    by (intros v; rewrite (list_tasks_run v other_id other status Hother); reflexivity).
  assert (Hhidden : forall task : Task.t,
             Task.user_id task = uid ->
             Z.eqb (Task.user_id task) other && status_matches status task = false).
  { intros task Howner.
    assert (Z.eqb (Task.user_id task) other = false) as ->
        by (apply Z.eqb_neq; congruence).
    reflexivity. }
  split.
  - intros title description. rewrite !Hrun. do 2 f_equal.
    unfold add_task. run. rewrite Hint. cbn.
    rewrite filter_app. cbn.
    assert (Z.eqb uid other = false) as -> by (apply Z.eqb_neq; exact Hne).
    cbn. apply app_nil_r.
  - intros task_id.
    assert (Hsame : forall task r,
               Table.get Task.id (tasks (db w)) task_id = Some task ->
               In r (tasks (db w)) -> Task.id r = Task.id task -> r = task).
    { intros task r Hget Hin Hid.
      destruct (get_some Task.id _ _ _ Hget) as [_ Hin'].
      exact (sorted_unique Task.id _ r task Hsorted Hin Hin' Hid). }
    split; [|split]; intros; rewrite !Hrun; do 2 f_equal;
      unfold complete_task, delete_task, update_task; run;
      destruct (Table.get Task.id (tasks (db w)) task_id) as [task|] eqn:Hget;
      cbn; try reflexivity;
      rewrite Hint; cbn;
      destruct (Z.eqb_spec (Task.user_id task) uid) as [Howner | Hforeign];
      cbn; try reflexivity.
    + apply filter_replace_hidden.
      * apply Hhidden. exact Howner.
      * cbn. intros r Hin Hid. rewrite (Hsame task r eq_refl Hin Hid).
        apply Hhidden. exact Howner.
    + apply filter_remove_hidden.
      intros r Hin Hid. rewrite (Hsame task r eq_refl Hin Hid).
      apply Hhidden. exact Howner.
    + apply filter_replace_hidden.
      * apply Hhidden. exact Howner.
      * cbn. intros r Hin Hid. rewrite (Hsame task r eq_refl Hin Hid).
        apply Hhidden. exact Howner.
Qed.

(** ** More on signup and login *)

Ltac run_auth_in H :=
  unfold signup, login, first_user_by_email, insert_user, create_access_token in H;
  run_in H.

Ltac run_auth :=
  unfold signup, login, first_user_by_email, insert_user, create_access_token; run.

Lemma find_app_none {A} (f : A -> bool) (l l' : list A) :
  find f l = None -> find f (l ++ l') = find f l'.
Proof.
  induction l as [|x l IH]; cbn; [reflexivity|].
  destruct (f x); [discriminate | exact IH].
Qed.

Lemma find_email_registered (rows : list User.t) (email : string) :
  (exists user, In user rows /\ User.email user = email) ->
  exists user, find (fun u => String.eqb (User.email u) email) rows = Some user.
Proof.
  intros (user & Hin & Heq).
  destruct (find _ rows) as [found|] eqn:Hfind; [eexists; reflexivity|].
  apply (find_none _ _ Hfind) in Hin. cbn in Hin.
  rewrite Heq, String.eqb_refl in Hin. discriminate.
Qed.

(** X9. [signup] with an email that some stored user already has (exact,
    case-sensitive match) fails with DuplicateEmail (400) and leaves the
    world as it was: no user is stored and the clock is not read. *)
Theorem signup_rejects_registered_email (request : SignupRequest.t) (w : World) :
  (exists user,
      In user (users (db w)) /\ User.email user = SignupRequest.email request) ->
  signup request w
  = (Raise (HTTPException DuplicateEmail (Text "Email already registered")), w).
Proof.
  intros Hregistered.
  destruct (find_email_registered _ _ Hregistered) as [found Hfind].
  run_auth. rewrite Hfind. reflexivity.
Qed.

(** X10. [signup] with an email no stored user has succeeds: it appends
    one user, under the next rowid, with the requested email and name, the
    hash of the password and two consecutive clock readings as time stamps,
    leaves the other tables alone, and answers with that user's id, email
    and name. *)
Theorem signup_stores_one_user (request : SignupRequest.t) (w : World) :
  (forall user, In user (users (db w)) ->
                User.email user <> SignupRequest.email request) ->
  exists (token : string) (w' : World),
    let user :=
      User.mk (Table.next_rowid User.id (users (db w)))
        (SignupRequest.email request) (SignupRequest.name request)
        (pwd_hash (SignupRequest.password request))
        (clock (ticks w)) (clock (S (ticks w))) in
    signup request w
    = (Return (AuthResponse.mk token
                 (UserSummary.mk (User.id user) (User.email user) (User.name user))),
       w') /\
    users (db w') = users (db w) ++ [user] /\
    tasks (db w') = tasks (db w) /\
    conversations (db w') = conversations (db w) /\
    messages (db w') = messages (db w).
Proof.
  intros Hfresh.
  assert (Hfind : find (fun u => String.eqb (User.email u) (SignupRequest.email request))
                    (users (db w)) = None).
  { destruct (find _ (users (db w))) as [found|] eqn:Hfind; [|reflexivity].
    destruct (find_some _ _ Hfind) as [Hin Heq]. apply String.eqb_eq in Heq.
    exfalso. exact (Hfresh found Hin Heq). }
  do 2 eexists. cbn zeta.
  split; [run_auth; rewrite Hfind; cbn; reflexivity|].
  cbn. repeat split.
Qed.

(** X11. Once [signup] has succeeded, every later [signup] in the
    resulting world with the same email fails with DuplicateEmail (400),
    whatever name and password it carries. *)
Theorem signup_twice_fails
    (request again : SignupRequest.t) (w w1 : World) (response : AuthResponse.t) :
  signup request w = (Return response, w1) ->
  SignupRequest.email again = SignupRequest.email request ->
  signup again w1
  = (Raise (HTTPException DuplicateEmail (Text "Email already registered")), w1).
Proof.
  intros H Hemail. run_auth_in H.
  destruct (find _ (users (db w))) as [found|] eqn:Hfind; cbn in H; [discriminate|].
  injection H as <- <-.
  run_auth. rewrite Hemail, (find_app_none _ _ _ Hfind). cbn.
  rewrite String.eqb_refl. reflexivity.
Qed.

(** X12. When verifying a password against its own hash succeeds, a
    [login] with the email and password of a successful [signup] succeeds
    in the resulting world, answers with the same user id, email and name,
    and with a token for that id whose expiry is the clock reading of the
    login; it stores nothing. *)
Theorem signup_then_login
    (request : SignupRequest.t) (w w1 : World) (response : AuthResponse.t) :
  signup request w = (Return response, w1) ->
  pwd_verify (SignupRequest.password request)
    (pwd_hash (SignupRequest.password request)) = true ->
  exists w2 : World,
    login (LoginRequest.mk (SignupRequest.email request)
             (SignupRequest.password request)) w1
    = (Return
         (AuthResponse.mk
            (jwt_encode
               (Payload.mk (Py.str (UserSummary.id (AuthResponse.user response)))
                  (clock (ticks w1)))
               SECRET_KEY ALGORITHM)
            (AuthResponse.user response)),
       w2) /\
    db w2 = db w1.
Proof.
  intros H Hverify. run_auth_in H.
  destruct (find _ (users (db w))) as [found|] eqn:Hfind; cbn in H; [discriminate|].
  injection H as <- <-.
  eexists. split.
  - run_auth. rewrite (find_app_none _ _ _ Hfind). cbn.
    rewrite String.eqb_refl. cbn. rewrite Hverify. cbn. reflexivity.
  - reflexivity.
Qed.


(** X14. [login] succeeds exactly when the first stored user with the
    requested email exists and the password verifies against that user's
    stored hash; whatever the outcome it writes nothing to the database. *)
Theorem login_succeeds_iff_verified (request : LoginRequest.t) (w : World) :
  ((exists response w', login request w = (Return response, w')) <->
   (exists user,
       find (fun u => String.eqb (User.email u) (LoginRequest.email request))
         (users (db w)) = Some user /\
       pwd_verify (LoginRequest.password request) (User.hashed_password user) = true)) /\
  db (snd (login request w)) = db w /\
  trace (snd (login request w)) = trace w.
Proof.
  run_auth.
  destruct (find _ (users (db w))) as [user|]; cbn.
  - destruct (pwd_verify _ _) eqn:Hverify; cbn.
    + split; [|split; reflexivity]. split.
      * intros _. exists user. split; [reflexivity | exact Hverify].
      * intros _. do 2 eexists. reflexivity.
    + split; [|split; reflexivity]. split.
      * intros (r & v & H). discriminate.
      * intros (u & Hu & Hv). injection Hu as <-. congruence.
  - split; [|split; reflexivity]. split.
    + intros (r & v & H). discriminate.
    + intros (u & Hu & _). discriminate.
Qed.

(** ** More on the intent resolver *)



(** X16. With a key configured, when the service signals no tool call
    (the list is absent or empty) the resolver returns the content of the
    reply as it is, with an empty list of tool calls, and does not touch
    the database. *)
Theorem call_ai_agent_plain_text
    (user_message user_id key : string)
    (requested : option (list RawToolCall.t)) (content : option string) (w : World) :
  getenv "OPENAI_API_KEY" = Some key ->
  key <> EmptyString ->
  post_chat_completions key user_message = ReplyMessage requested content ->
  Py.truthy_list requested = false ->
  call_ai_agent user_message user_id w
  = (Return (content, []), agent_entered user_message user_id w).
Proof.
  intros Henv Hkey Hreply Hnone.
  unfold call_ai_agent. unfold bind at 1. unfold emit at 1. unfold try_.
  rewrite Henv, (truthy_key key Hkey). cbn [negb].
  rewrite Hreply, Hnone. reflexivity.
Qed.

(** ** More on the chat turn *)

Ltac run_chat_in H :=
  unfold chat, insert_message, insert_conversation, save_conversation in H; run_in H.

Ltac resolve_agent_in H text calls :=
  match type of H with
  | context [call_ai_agent ?m ?u ?v] =>
      let Ha := fresh "Hagent" in
      destruct (call_ai_agent_returns m u v) as [[text calls] Ha];
      rewrite Ha in H; unfold agent_entered in H; cbn in H
  end.


(** X18. A successful chat turn whose request carries no conversation
    id, or the id 0, starts a conversation: one conversation is appended,
    owned by [int(user_id)], under a rowid larger than that of every
    existing conversation, stamped with two consecutive clock readings, and
    the response names it. *)
Theorem chat_starts_conversation
    (user_id : string) (request : ChatRequest.t) (w w' : World)
    (response : ChatResponse.t) :
  Py.truthy_int (ChatRequest.conversation_id request) = false ->
  chat user_id request w = (Return response, w') ->
  exists uid : Z,
    py_int user_id = Some uid /\
    conversations (db w') =
      conversations (db w) ++
      [Conversation.mk (ChatResponse.conversation_id response) uid
         (clock (ticks w)) (clock (S (ticks w)))] /\
    ChatResponse.conversation_id response
    = Table.next_rowid Conversation.id (conversations (db w)) /\
    (forall conversation,
        In conversation (conversations (db w)) ->
        Conversation.id conversation < ChatResponse.conversation_id response).
Proof.
  intros Hfalsy H. run_chat_in H. rewrite Hfalsy in H. cbn in H.
  destruct (py_int user_id) as [uid|]; cbn in H; [|discriminate].
  resolve_agent_in H text calls.
  destruct text as [text|]; cbn in H; [|discriminate].
  injection H as <- <-. cbn.
  exists uid. split; [reflexivity|]. split; [reflexivity|]. split; [reflexivity|].
  intros conversation Hin. apply (next_rowid_above Conversation.id _ _ Hin).
Qed.

(** X19. A successful chat turn on an existing conversation refreshes
    that conversation's [updated_at] with the first clock reading of the
    turn and changes nothing else in the conversation table: its owner and
    creation time stay, and every other id names the conversation it named
    before. *)
Theorem chat_refreshes_conversation
    (user_id : string) (request : ChatRequest.t) (w w' : World)
    (response : ChatResponse.t) :
  Py.truthy_int (ChatRequest.conversation_id request) = true ->
  chat user_id request w = (Return response, w') ->
  exists old : Conversation.t,
    ChatRequest.conversation_id request = Some (ChatResponse.conversation_id response) /\
    Table.get Conversation.id (conversations (db w))
      (ChatResponse.conversation_id response) = Some old /\
    Table.get Conversation.id (conversations (db w'))
      (ChatResponse.conversation_id response)
    = Some (Conversation.mk (Conversation.id old) (Conversation.user_id old)
              (Conversation.created_at old) (clock (ticks w))) /\
    (forall key, key <> ChatResponse.conversation_id response ->
       Table.get Conversation.id (conversations (db w')) key
       = Table.get Conversation.id (conversations (db w)) key).
Proof.
  intros Htruthy H. run_chat_in H. rewrite Htruthy in H. cbn in H.
  destruct (ChatRequest.conversation_id request) as [key|]; [|discriminate].
  destruct (Table.get Conversation.id (conversations (db w)) key)
    as [old|] eqn:Hget; cbn in H; [|discriminate].
  destruct (py_int user_id) as [uid|]; cbn in H; [|discriminate].
  resolve_agent_in H text calls.
  destruct text as [text|]; cbn in H; [|discriminate].
  injection H as <- <-. cbn.
  destruct (get_some Conversation.id _ _ _ Hget) as [Hid _].
  pose proof Hget as Hget'. rewrite <- Hid in Hget'.
  exists old. split; [reflexivity|]. split; [exact Hget|].
  split.
  - rewrite <- Hid.
    exact (get_replace_same Conversation.id _ old
             (Conversation.mk (Conversation.id old) _ _ _) Hget').
  - intros other Hne. apply get_replace_other. cbn. congruence.
Qed.




(** ** The keyword test *)

Lemma prefix_iff (p s : string) :
  String.prefix p s = true <-> exists after, s = p +++ after.
Proof.
  revert s. induction p as [|a p IH]; intros s.
  - destruct s; cbn; (split; [intros _; eexists; reflexivity | reflexivity]).
  - destruct s as [|b s]; cbn.
    + split; [discriminate | intros [after H]; discriminate].
    + destruct (Ascii.ascii_dec a b) as [Heq | Hne].
      * subst b. split.
        -- intros H. apply IH in H. destruct H as [after ->].
           exists after. reflexivity.
        -- intros [after H]. apply IH. exists after. congruence.
      * split; [discriminate|]. intros [after H]. congruence.
Qed.

Lemma contains_iff (needle hay : string) :
  Py.contains needle hay = true <->
  exists before after, hay = before +++ needle +++ after.
Proof.
  induction hay as [|c hay IH]; cbn [Py.contains].
  - rewrite orb_false_r. split.
    + intros H. apply prefix_iff in H. destruct H as [after H].
      exists EmptyString, after. exact H.
    + intros (before & after & H). apply prefix_iff. exists after.
      destruct before; [exact H | discriminate].
  - rewrite orb_true_iff. split.
    + intros [H | H].
      * apply prefix_iff in H. destruct H as [after H].
        exists EmptyString, after. exact H.
      * apply IH in H. destruct H as (before & after & H).
        exists (String c before), after. cbn. congruence.
    + intros (before & after & H). destruct before as [|b before].
      * left. apply prefix_iff. exists after. exact H.
      * right. apply IH. exists before, after. cbn in H. congruence.
Qed.

Lemma any_in_occurs (words : list string) (text : string) :
  Py.any_in words text = true <-> occurs words text.
Proof.
  unfold Py.any_in, occurs. rewrite existsb_exists. split.
  - intros (word & Hin & Hc). apply contains_iff in Hc.
    destruct Hc as (before & after & H). exists word, before, after. auto.
  - intros (word & before & after & Hin & H). exists word. split; [exact Hin|].
    apply contains_iff. exists before, after. exact H.
Qed.

Lemma any_in_absent (words : list string) (text : string) :
  Py.any_in words text = false <-> ~ occurs words text.
Proof.
  rewrite <- any_in_occurs. destruct (Py.any_in words text); split;
    congruence.
Qed.

(** X23. Which tool the fallback names is decided by substring
    occurrence in the lowercased text, not by words: it names [add_task]
    exactly when "add", "create" or "remember" occurs somewhere in it;
    [list_tasks] exactly when none of those does and "list", "show",
    "what" or "pending" does; [complete_task] exactly when none of the
    former does and "complete", "done" or "finish" does; [delete_task]
    exactly when none of the former does and "delete" or "remove" does; and
    no tool exactly when none of the twelve occurs. *)
Theorem fallback_decided_by_substrings (user_message user_id : string) :
  let text := py_lower user_message in
  let named := map ToolCall.name (snd (get_fallback_response user_message user_id)) in
  let adding := occurs ["add"; "create"; "remember"] text in
  let listing := occurs ["list"; "show"; "what"; "pending"] text in
  let completing := occurs ["complete"; "done"; "finish"] text in
  let deleting := occurs ["delete"; "remove"] text in
  (named = ["add_task"] <-> adding) /\
  (named = ["list_tasks"] <-> ~ adding /\ listing) /\
  (named = ["complete_task"] <-> ~ adding /\ ~ listing /\ completing) /\
  (named = ["delete_task"] <-> ~ adding /\ ~ listing /\ ~ completing /\ deleting) /\
  (named = [] <-> ~ adding /\ ~ listing /\ ~ completing /\ ~ deleting).
Proof.
  intros text named adding listing completing deleting.
  unfold named, get_fallback_response. fold text.
  destruct (Py.any_in ["add"; "create"; "remember"] text) eqn:H1.
  { apply any_in_occurs in H1. fold adding in H1. cbn.
    repeat split; intros; try discriminate; try assumption;
      repeat match goal with H : _ /\ _ |- _ => destruct H end; contradiction. }
  apply any_in_absent in H1. fold adding in H1.
  destruct (Py.any_in ["list"; "show"; "what"; "pending"] text) eqn:H2.
  { apply any_in_occurs in H2. fold listing in H2. cbn.
    repeat split; intros; try discriminate; try assumption;
      repeat match goal with H : _ /\ _ |- _ => destruct H end; contradiction. }
  apply any_in_absent in H2. fold listing in H2.
  destruct (Py.any_in ["complete"; "done"; "finish"] text) eqn:H3.
  { apply any_in_occurs in H3. fold completing in H3. cbn.
    repeat split; intros; try discriminate; try assumption;
      repeat match goal with H : _ /\ _ |- _ => destruct H end; contradiction. }
  apply any_in_absent in H3. fold completing in H3.
  destruct (Py.any_in ["delete"; "remove"] text) eqn:H4.
  { apply any_in_occurs in H4. fold deleting in H4. cbn.
    repeat split; intros; try discriminate; try assumption;
      repeat match goal with H : _ /\ _ |- _ => destruct H end; contradiction. }
  apply any_in_absent in H4. fold deleting in H4. cbn.
  repeat split; intros; try discriminate; try assumption;
    repeat match goal with H : _ /\ _ |- _ => destruct H end; contradiction.
Qed.

(** ** The application and the store invariants *)

Lemma db_steps_snoc (a b c : Db) : db_steps a b -> db_step b c -> db_steps a c.
Proof. intros Hab Hbc. eapply rt_trans; [exact Hab | apply rt_step, Hbc]. Qed.

Lemma db_steps_refl (a : Db) : db_steps a a.
Proof. apply rt_refl. Qed.

Lemma db_steps_one (a b : Db) : db_step a b -> db_steps a b.
Proof. apply rt_step. Qed.

Ltac fresh_row :=
  intros ? ?Hin; cbn;
  match goal with
  | Hin : In ?x ?rows |- _ =>
      let H := fresh in
      pose proof (next_rowid_above _ rows x Hin) as H; cbn in H; lia
  end.

Ltac lookup_conversation :=
  cbn;
  first
    [ eassumption
    | match goal with
      | Hget : Table.get Conversation.id ?rows ?key = Some ?old |- _ =>
          let Hid := fresh in
          destruct (get_some Conversation.id _ _ _ Hget) as [Hid _];
          rewrite <- Hid in Hget |- *;
          exact (get_replace_same Conversation.id rows old
                   (Conversation.mk (Conversation.id old) _ _ _) Hget)
      end
    | apply (get_app_fresh Conversation.id _ (Conversation.mk _ _ _ _));
      intros ? ?Hin; cbn;
      match goal with
      | Hin : In ?x ?rows |- _ =>
          let H := fresh in
          pose proof (next_rowid_above Conversation.id rows x Hin) as H; lia
      end ].

Ltac steps :=
  first
    [ apply db_steps_refl
    | eapply db_steps_snoc;
      [ | first
            [ eapply step_insert_message; [reflexivity | reflexivity | lookup_conversation]
            | eapply step_insert_conversation; [reflexivity | reflexivity]
            | eapply step_replace_conversation; cbn; eassumption
            | eapply step_insert_task; [reflexivity | reflexivity]
            | eapply step_replace_task; cbn; eassumption
            | eapply step_remove_task ] ];
      steps ].

(** Every route changes the database by committed writes of the seven
    kinds of [db_step] only. *)
Lemma app_db_steps (request : Request) (w : World) :
  db_steps (db w) (db (snd (app request w))).
Proof.
  destruct request as [body|body|user_id body|body|body|body|body|body| |];
    unfold app, root, health_check.
  - (* signup *)
    unfold bind at 1. run_auth.
    destruct (find _ (users (db w))) as [existing|] eqn:Hfind; cbn; [apply db_steps_refl|].
    apply db_steps_one. eapply step_insert_user; [reflexivity | reflexivity|].
    intros other Hin. cbn. apply (find_none _ _ Hfind) in Hin. cbn in Hin.
    intros Heq. rewrite Heq, String.eqb_refl in Hin. discriminate.
  - (* login *)
    unfold bind at 1. run_auth.
    destruct (find _ (users (db w))) as [user|]; cbn; [|apply db_steps_refl].
    destruct (pwd_verify _ _); cbn; apply db_steps_refl.
  - (* chat *)
    unfold bind at 1. run_chat.
    destruct (ChatRequest.conversation_id body) as [key|]; cbn.
    + destruct (Z.eqb key 0); cbn.
      * destruct (py_int user_id); cbn; [|apply db_steps_refl].
        resolve_agent text calls. destruct text; cbn; steps.
      * destruct (Table.get Conversation.id (conversations (db w)) key)
          as [old|] eqn:Hget; cbn; [|apply db_steps_refl].
        pose proof Hget as Hold.
        destruct (get_some Conversation.id _ _ _ Hget) as [Hid _].
        rewrite <- Hid in Hold.
        destruct (py_int user_id); cbn.
        -- resolve_agent text calls. destruct text; cbn; steps.
        -- steps.
    + destruct (py_int user_id); cbn; [|apply db_steps_refl].
      resolve_agent text calls. destruct text; cbn; steps.
  - (* add_task *)
    unfold bind at 1, add_task. run.
    destruct (py_int _); cbn; steps.
  - (* list_tasks *)
    unfold bind at 1, list_tasks. run.
    destruct (py_int _); cbn; steps.
  - (* complete_task *)
    unfold bind at 1, complete_task. run.
    destruct (Table.get Task.id (tasks (db w)) _) as [old|] eqn:Hget; cbn; [|steps].
    destruct (get_some Task.id _ _ _ Hget) as [Hid _]. rewrite <- Hid in Hget.
    destruct (py_int _); cbn; [|steps].
    destruct (Z.eqb _ _); cbn; steps.
  - (* delete_task *)
    unfold bind at 1, delete_task. run.
    destruct (Table.get Task.id (tasks (db w)) _) as [old|] eqn:Hget; cbn; [|steps].
    destruct (py_int _); cbn; [|steps].
    destruct (Z.eqb _ _); cbn; steps.
  - (* update_task *)
    unfold bind at 1, update_task. run.
    destruct (Table.get Task.id (tasks (db w)) _) as [old|] eqn:Hget; cbn; [|steps].
    destruct (get_some Task.id _ _ _ Hget) as [Hid _]. rewrite <- Hid in Hget.
    destruct (py_int _); cbn; [|steps].
    destruct (Z.eqb _ _); cbn; steps.
  - apply db_steps_refl.
  - apply db_steps_refl.
Qed.

Lemma next_rowid_positive {R} (rid : R -> Z) (rows : list R) :
  Forall (fun r => 0 < rid r) rows -> 0 < Table.next_rowid rid rows.
Proof.
  unfold Table.next_rowid. destruct rows as [|r rest]; [lia|].
  intros H. apply Forall_inv in H.
  pose proof (fold_max_ge_init (map rid rest) (rid r)). lia.
Qed.

Lemma positive_insert {R} (rid : R -> Z) (rows : list R) (r : R) :
  rid r = Table.next_rowid rid rows ->
  Forall (fun x => 0 < rid x) rows -> Forall (fun x => 0 < rid x) (rows ++ [r]).
Proof.
  intros Hid H. apply Forall_app. split; [exact H|].
  constructor; [|constructor]. rewrite Hid. apply next_rowid_positive, H.
Qed.

Lemma positive_replace {R} (rid : R -> Z) (rows : list R) (old r : R) :
  Table.get rid rows (rid r) = Some old ->
  Forall (fun x => 0 < rid x) rows ->
  Forall (fun x => 0 < rid x) (Table.replace rid r rows).
Proof.
  intros Hget H. rewrite Forall_forall in *. intros x Hx.
  apply in_replace in Hx. destruct Hx as [-> | [Hx _]]; [|apply H, Hx].
  destruct (get_some rid _ _ _ Hget) as [Hid Hin]. rewrite <- Hid. apply H, Hin.
Qed.

Lemma positive_remove {R} (rid : R -> Z) (rows : list R) (key : Z) :
  Forall (fun x => 0 < rid x) rows ->
  Forall (fun x => 0 < rid x) (Table.remove rid key rows).
Proof.
  intros H. rewrite Forall_forall in *. intros x Hx.
  unfold Table.remove in Hx. apply filter_In in Hx. apply H, Hx.
Qed.

Lemma db_step_wf (d d' : Db) : db_step d d' -> db_wf d -> db_wf d'.
Proof.
  intros Hstep Hwf. destruct Hstep; subst.
  - apply db_wf_insert_user; auto.
  - apply db_wf_insert_task; auto.
  - apply db_wf_replace_task; auto.
  - apply db_wf_remove_task; auto.
  - apply db_wf_insert_conversation; auto.
  - apply db_wf_replace_conversation; auto.
  - apply db_wf_insert_message; auto.
Qed.

Lemma db_step_positive (d d' : Db) :
  db_step d d' -> rowids_positive d -> rowids_positive d'.
Proof.
  intros Hstep (Hu & Ht & Hc & Hm). destruct Hstep; subst;
    repeat split; cbn; auto using positive_insert, positive_remove;
    eapply positive_replace; eauto.
Qed.

Lemma db_step_emails (d d' : Db) :
  db_step d d' -> emails_unique d -> emails_unique d'.
Proof.
  unfold emails_unique. intros Hstep Hunique. destruct Hstep; subst; cbn; auto.
  rewrite map_app. cbn. apply NoDup_app; [exact Hunique | repeat constructor; intros [] |].
  intros email Hin [<- | []].
  apply in_map_iff in Hin. destruct Hin as (other & Heq & Hin).
  match goal with Hfresh : forall _, In _ _ -> _ |- _ => exact (Hfresh other Hin Heq) end.
Qed.

Lemma db_step_linked (d d' : Db) :
  db_step d d' -> messages_linked d -> messages_linked d'.
Proof.
  unfold messages_linked. intros Hstep Hlinked. destruct Hstep; subst; cbn; auto.
  - (* a conversation is added *)
    intros message Hin. destruct (Hlinked message Hin) as (c & Hc & Hid).
    exists c. split; [apply in_or_app; left; exact Hc | exact Hid].
  - (* a conversation is refreshed *)
    intros message Hin. destruct (Hlinked message Hin) as (c & Hc & Hid).
    destruct (Z.eq_dec (Conversation.id c) (Conversation.id conversation)) as [Heq | Hne].
    + exists conversation. split; [|congruence].
      eapply in_replace_new. eassumption.
    + exists c. split; [|exact Hid].
      unfold Table.replace. apply in_map_iff. exists c. split; [|exact Hc].
      apply Z.eqb_neq in Hne. rewrite Hne. reflexivity.
  - (* a message is added *)
    intros m Hin. apply in_app_or in Hin. destruct Hin as [Hin | [<- | []]].
    + apply Hlinked, Hin.
    + match goal with
      | Hget : Table.get Conversation.id _ _ = Some ?c |- _ =>
          destruct (get_some Conversation.id _ _ _ Hget) as [Hid Hc];
          exists c; split; [exact Hc | exact Hid]
      end.
Qed.

Lemma db_steps_preserve (I : Db -> Prop) :
  (forall d d', db_step d d' -> I d -> I d') ->
  forall d d', db_steps d d' -> I d -> I d'.
Proof.
  intros Hstep d d' Hsteps. induction Hsteps as [a b Hab | a | a b c _ IHab _ IHbc].
  - apply Hstep, Hab.
  - auto.
  - auto.
Qed.

Lemma serve_preserves (I : Db -> Prop) :
  (forall d d', db_step d d' -> I d -> I d') ->
  forall requests w, I (db w) -> I (db (serve requests w)).
Proof.
  intros Hstep requests. induction requests as [|request rest IH]; intros w Hw; cbn.
  - exact Hw.
  - apply IH. exact (db_steps_preserve I Hstep _ _ (app_db_steps request w) Hw).
Qed.

(** X24. However many requests the application serves, on whatever
    routes and with whatever outcomes, the rowids of every table stay
    strictly increasing (so ids are unique) and positive; in particular no
    conversation ever has the id 0. *)
Theorem serve_keeps_rowids_ordered (requests : list Request) (w : World) :
  db_wf (db w) ->
  rowids_positive (db w) ->
  db_wf (db (serve requests w)) /\
  rowids_positive (db (serve requests w)) /\
  Table.get Conversation.id (conversations (db (serve requests w))) 0 = None.
Proof.
  intros Hwf Hpositive.
  pose proof (serve_preserves db_wf db_step_wf requests w Hwf) as Hwf'.
  pose proof (serve_preserves rowids_positive db_step_positive requests w Hpositive)
    as Hpositive'.
  split; [exact Hwf'|]. split; [exact Hpositive'|].
  destruct (Table.get Conversation.id (conversations (db (serve requests w))) 0)
    as [conversation|] eqn:Hget; [|reflexivity].
  destruct (get_some Conversation.id _ _ _ Hget) as [Hid Hin].
  destruct Hpositive' as (_ & _ & Hc & _). rewrite Forall_forall in Hc.
  specialize (Hc conversation Hin). lia.
Qed.

(** X25. However many requests the application serves, no two stored
    users ever share an email: [signup] is the only route that adds a user
    and it checks the email first. *)
Theorem serve_keeps_emails_unique (requests : list Request) (w : World) :
  emails_unique (db w) -> emails_unique (db (serve requests w)).
Proof.
  apply (serve_preserves emails_unique db_step_emails).
Qed.

(** X26. However many requests the application serves, every stored
    message names a stored conversation: the chat turn is the only route
    that stores messages, it stores them under a conversation it has just
    created or found, and no route removes a conversation. *)
Theorem serve_keeps_messages_linked (requests : list Request) (w : World) :
  messages_linked (db w) -> messages_linked (db (serve requests w)).
Proof.
  apply (serve_preserves messages_linked db_step_linked).
Qed.

End Backend.

(** ** The handlers on concrete requests *)

Example fallback_add :
  map ToolCall.name (snd (get_fallback_response Sample.lower "add buy milk" "1"))
  = ["add_task"].
Proof. reflexivity. Qed.

Example fallback_priority :
  map ToolCall.name
    (snd (get_fallback_response Sample.lower "Please DELETE what I added" "1"))
  = ["add_task"].
Proof. reflexivity. Qed.

Example fallback_substring :
  map ToolCall.name (snd (get_fallback_response Sample.lower "Undone" "1"))
  = ["complete_task"].
Proof. reflexivity. Qed.

Example fallback_help :
  snd (get_fallback_response Sample.lower "hello" "1") = [].
Proof. reflexivity. Qed.

(** A user id that [int()] rejects meets Internal (500), not Forbidden. *)
Example complete_task_bad_user_id :
  complete_task Sample.clock Sample.int (CompleteTaskInput.mk "abc" 1)
    Sample.world_with_task
  = (Raise (HTTPException Internal (StrOf (ValueError "abc"))),
     Sample.world_with_task).
Proof. reflexivity. Qed.

(** When the answer cannot be stored the turn fails with Internal (500),
    and the user message stored before the resolver ran stays. *)
Example chat_fails_after_user_message :
  let out :=
    chat Sample.clock Sample.int Sample.getenv_key Sample.lower Sample.eval
      Sample.null_content "1" (ChatRequest.mk None "hello") Sample.world0 in
  fst out = Raise (HTTPException Internal (StrOf (IntegrityError "messages.content"))) /\
  messages (db (snd out)) = [Message.mk 1 1 1 "user" "hello" 1700000002].
Proof. split; reflexivity. Qed.


Lemma update_task_overwrites_supplied_fields_witness :
  exists (w' : World) (result : ToolResult.t) (new : Task.t),
    update_task Sample.clock Sample.int (UpdateTaskInput.mk "1" 1 (Some EmptyString) None)
      Sample.world_with_task = (Return result, w') /\
    Table.get Task.id (tasks (db w')) 1 = Some new /\
    Task.title new = EmptyString /\
    Task.description new = Some "two litres".
Proof.
  pose proof
    (update_task_overwrites_supplied_fields Sample.clock Sample.int
       (UpdateTaskInput.mk "1" 1 (Some EmptyString) None) Sample.world_with_task
       _ _ eq_refl) as (old & new & Hold & Hnew & Htitle & Hdescription & _).
  vm_compute in Hold. injection Hold as <-.
  do 2 eexists. exists new. split; [reflexivity|].
  split; [exact Hnew|]. split; [exact Htitle | exact Hdescription].
Defined.

Lemma complete_task_twice_witness :
  exists (w1 w2 : World) (result : ToolResult.t),
    complete_task Sample.clock Sample.int (CompleteTaskInput.mk "1" 1)
      Sample.world_with_task = (Return result, w1) /\
    complete_task Sample.clock Sample.int (CompleteTaskInput.mk "1" 1) w1
    = (Return result, w2).
Proof.
  pose proof
    (complete_task_twice Sample.clock Sample.int (CompleteTaskInput.mk "1" 1)
       Sample.world_with_task _ _ eq_refl) as (w2 & once & twice & Hagain & _).
  do 2 eexists. eexists. split; [reflexivity | exact Hagain].
Defined.


Lemma issued_token_expires_at_issuance_witness :
  exists (w' : World) (response : AuthResponse.t),
    signup Sample.clock Sample.getenv_unset Sample.pwd_hash Sample.jwt_encode
      (SignupRequest.mk "Ada" "ada@example.org" "secret") Sample.world0
    = (Return response, w') /\
    exists user issuance,
      In user (users (db w')) /\
      UserSummary.id (AuthResponse.user response) = User.id user /\
      create_access_token Sample.clock Sample.getenv_unset Sample.jwt_encode
        (Py.str (User.id user)) issuance = (Return (AuthResponse.token response), w') /\
      AuthResponse.token response
      = Sample.jwt_encode
          (Payload.mk (Py.str (User.id user)) (Sample.clock (ticks issuance)))
          (SECRET_KEY Sample.getenv_unset) ALGORITHM.
Proof.
  do 2 eexists.
  refine ((fun H => conj H
             (issued_token_expires_at_issuance Sample.clock Sample.getenv_unset
                Sample.pwd_hash Sample.pwd_verify Sample.jwt_encode
                Sample.world0 _ _ (or_introl (ex_intro _ _ H)))) _).
  cbv. reflexivity.
Defined.


Lemma chat_appends_user_then_assistant_witness :
  exists (w' : World) (response : ChatResponse.t),
    chat Sample.clock Sample.int Sample.getenv_unset Sample.lower Sample.eval
      Sample.unreachable "1" (ChatRequest.mk None "add buy milk") Sample.world0
    = (Return response, w') /\
    map Message.role (messages (db w')) = ["user"; "assistant"] /\
    map Message.content (messages (db w'))
    = ["add buy milk"; ChatResponse.response response].
Proof.
  assert (Hrun : exists response w',
             chat Sample.clock Sample.int Sample.getenv_unset Sample.lower
               Sample.eval Sample.unreachable "1"
               (ChatRequest.mk None "add buy milk") Sample.world0
             = (Return response, w'))
    by (do 2 eexists; cbv; reflexivity).
  destruct Hrun as (response & w' & Hrun).
  destruct
    (chat_appends_user_then_assistant Sample.clock Sample.int Sample.getenv_unset
       Sample.lower Sample.eval Sample.unreachable "1"
       (ChatRequest.mk None "add buy milk") Sample.world0 w' response Hrun)
    as (uid & asked_id & asked_at & answered_id & answered_at & before & stored
        & _ & Hmessages & _).
  exists w', response. split; [exact Hrun|].
  rewrite Hmessages. split; reflexivity.
Defined.





(** ** The further properties on concrete requests *)

Lemma add_task_twice_gives_two_tasks_witness :
  exists (first second : ToolResult.t) (w1 w2 : World),
    add_task Sample.clock Sample.int (AddTaskInput.mk "1" "buy milk" None) Sample.world0
    = (Return first, w1) /\
    add_task Sample.clock Sample.int (AddTaskInput.mk "1" "buy milk" None) w1
    = (Return second, w2) /\
    ToolResult.task_id first < ToolResult.task_id second /\
    List.length (tasks (db w2)) = 2%nat.
Proof.
  assert (Hrun : exists first w1,
             add_task Sample.clock Sample.int (AddTaskInput.mk "1" "buy milk" None)
               Sample.world0 = (Return first, w1))
    by (do 2 eexists; cbv; reflexivity).
  destruct Hrun as (first & w1 & Hrun).
  destruct (add_task_twice_gives_two_tasks Sample.clock Sample.int _ _ _ _ Hrun)
    as (second & w2 & task1 & task2 & Hagain & Htasks & _ & _ & Hlt & _).
  exists first, second, w1, w2.
  split; [exact Hrun|]. split; [exact Hagain|]. split; [exact Hlt|].
  rewrite Htasks. reflexivity.
Defined.

Lemma add_task_then_list_tasks_witness :
  exists (result : ToolResult.t) (w1 : World) (listed : list TaskSummary.t),
    add_task Sample.clock Sample.int (AddTaskInput.mk "1" "walk" None)
      Sample.world_with_task = (Return result, w1) /\
    list_tasks Sample.int (ListTasksInput.mk "1" (Some "pending")) w1
    = (Return listed, w1) /\
    map TaskSummary.title listed = ["buy milk"; "walk"].
Proof.
  assert (Hrun : exists result w1,
             add_task Sample.clock Sample.int (AddTaskInput.mk "1" "walk" None)
               Sample.world_with_task = (Return result, w1))
    by (do 2 eexists; cbv; reflexivity).
  destruct Hrun as (result & w1 & Hrun).
  destruct (add_task_then_list_tasks Sample.clock Sample.int _ _ _ _
              (Some "pending") Hrun)
    as (before & task & Hbefore & _ & Htitle & _ & _ & Hafter).
  cbv in Hbefore. injection Hbefore as <-.
  eexists result, w1, _. split; [exact Hrun|]. split; [exact Hafter|].
  cbn. rewrite Htitle. reflexivity.
Defined.

Lemma complete_task_sets_only_the_flag_witness :
  exists (result : ToolResult.t) (w' : World),
    complete_task Sample.clock Sample.int (CompleteTaskInput.mk "1" 1)
      Sample.world_with_task = (Return result, w') /\
    Table.get Task.id (tasks (db w')) 1
    = Some (Task.mk 1 1 "buy milk" (Some "two litres") true 1699999990 1700000000).
Proof.
  assert (Hrun : exists result w',
             complete_task Sample.clock Sample.int (CompleteTaskInput.mk "1" 1)
               Sample.world_with_task = (Return result, w'))
    by (do 2 eexists; cbv; reflexivity).
  destruct Hrun as (result & w' & Hrun).
  destruct (complete_task_sets_only_the_flag Sample.clock Sample.int _ _ _ _ Hrun)
    as (old & Hold & Hnew & _).
  cbv in Hold. injection Hold as <-.
  exists result, w'. split; [exact Hrun | exact Hnew].
Defined.


Lemma delete_task_removes_the_task_witness :
  exists (result : ToolResult.t) (w' : World),
    delete_task Sample.int (DeleteTaskInput.mk "1" 1)
      Sample.world_with_task = (Return result, w') /\
    result = ToolResult.mk 1 "deleted" "buy milk" /\
    Table.get Task.id (tasks (db w')) 1 = None /\
    delete_task Sample.int (DeleteTaskInput.mk "1" 1) w'
    = (Raise (HTTPException NotFound (Text "Task not found")), w').
Proof.
  assert (Hrun : exists result w',
             delete_task Sample.int (DeleteTaskInput.mk "1" 1)
               Sample.world_with_task = (Return result, w'))
    by (do 2 eexists; cbv; reflexivity).
  destruct Hrun as (result & w' & Hrun).
  destruct (delete_task_removes_the_task Sample.clock Sample.int _ _ _ _ Hrun)
    as (old & Hold & Hresult & Hgone & _ & _ & _ & _ & _ & Hlater).
  cbv in Hold. injection Hold as <-.
  exists result, w'. split; [exact Hrun|]. split; [exact Hresult|].
  split; [exact Hgone|].
  exact (proj1 (proj2 (Hlater "1"))).
Defined.


Lemma task_tools_keep_other_users_listing_witness :
  tasks (db (snd (delete_task Sample.int (DeleteTaskInput.mk "2" 2)
                    Sample.world_two_owners))) = [Sample.task1] /\
  fst (list_tasks Sample.int (ListTasksInput.mk "1" None)
         (snd (delete_task Sample.int (DeleteTaskInput.mk "2" 2)
                 Sample.world_two_owners)))
  = fst (list_tasks Sample.int (ListTasksInput.mk "1" None) Sample.world_two_owners).
Proof.
  split; [reflexivity|].
  refine (proj1 (proj2 (proj2 (task_tools_keep_other_users_listing
                   Sample.clock Sample.int Sample.world_two_owners "2" "1" 2 1 None
                   _ eq_refl eq_refl _) 2))).
  - repeat constructor.
  - lia.
Defined.

Lemma signup_rejects_registered_email_witness :
  signup Sample.clock Sample.getenv_unset Sample.pwd_hash Sample.jwt_encode
    (SignupRequest.mk "Eve" "ada@example.org" "other") Sample.world_with_user
  = (Raise (HTTPException DuplicateEmail (Text "Email already registered")),
     Sample.world_with_user).
Proof.
  apply (signup_rejects_registered_email Sample.clock Sample.getenv_unset
           Sample.pwd_hash Sample.jwt_encode).
  exists Sample.user1. split; [left; reflexivity | reflexivity].
Defined.

Lemma signup_stores_one_user_witness :
  exists (token : string) (w' : World),
    signup Sample.clock Sample.getenv_unset Sample.pwd_hash Sample.jwt_encode
      (SignupRequest.mk "Bob" "bob@example.org" "hunter2") Sample.world_with_user
    = (Return (AuthResponse.mk token (UserSummary.mk 2 "bob@example.org" "Bob")), w') /\
    users (db w') =
      [Sample.user1;
       User.mk 2 "bob@example.org" "Bob" "$2b$hunter2" 1700000000 1700000001].
Proof.
  destruct (signup_stores_one_user Sample.clock Sample.getenv_unset Sample.pwd_hash
              Sample.jwt_encode (SignupRequest.mk "Bob" "bob@example.org" "hunter2")
              Sample.world_with_user)
    as (token & w' & Hrun & Husers & _).
  - intros user [<- | []]. cbn. discriminate.
  - exists token, w'. split; [exact Hrun | exact Husers].
Defined.

Lemma signup_twice_fails_witness :
  exists (response : AuthResponse.t) (w1 : World),
    signup Sample.clock Sample.getenv_unset Sample.pwd_hash Sample.jwt_encode
      (SignupRequest.mk "Ada" "ada@example.org" "secret") Sample.world0
    = (Return response, w1) /\
    signup Sample.clock Sample.getenv_unset Sample.pwd_hash Sample.jwt_encode
      (SignupRequest.mk "Eve" "ada@example.org" "other") w1
    = (Raise (HTTPException DuplicateEmail (Text "Email already registered")), w1).
Proof.
  assert (Hrun : exists response w1,
             signup Sample.clock Sample.getenv_unset Sample.pwd_hash Sample.jwt_encode
               (SignupRequest.mk "Ada" "ada@example.org" "secret") Sample.world0
             = (Return response, w1))
    by (do 2 eexists; cbv; reflexivity).
  destruct Hrun as (response & w1 & Hrun).
  exists response, w1. split; [exact Hrun|].
  exact (signup_twice_fails Sample.clock Sample.getenv_unset Sample.pwd_hash
           Sample.jwt_encode _ (SignupRequest.mk "Eve" "ada@example.org" "other")
           _ _ _ Hrun eq_refl).
Defined.

Lemma signup_then_login_witness :
  exists (response again : AuthResponse.t) (w1 w2 : World),
    signup Sample.clock Sample.getenv_unset Sample.pwd_hash Sample.jwt_encode
      (SignupRequest.mk "Ada" "ada@example.org" "secret") Sample.world0
    = (Return response, w1) /\
    login Sample.clock Sample.getenv_unset Sample.pwd_verify Sample.jwt_encode
      (LoginRequest.mk "ada@example.org" "secret") w1
    = (Return again, w2) /\
    AuthResponse.user again = AuthResponse.user response.
Proof.
  assert (Hrun : exists response w1,
             signup Sample.clock Sample.getenv_unset Sample.pwd_hash Sample.jwt_encode
               (SignupRequest.mk "Ada" "ada@example.org" "secret") Sample.world0
             = (Return response, w1))
    by (do 2 eexists; cbv; reflexivity).
  destruct Hrun as (response & w1 & Hrun).
  destruct (signup_then_login Sample.clock Sample.getenv_unset Sample.pwd_hash
              Sample.pwd_verify Sample.jwt_encode _ _ _ _ Hrun eq_refl)
    as (w2 & Hlogin & _).
  eexists response, _, w1, w2. split; [exact Hrun|]. split; [exact Hlogin|].
  reflexivity.
Defined.



Lemma call_ai_agent_plain_text_witness :
  call_ai_agent Sample.getenv_key Sample.lower Sample.eval Sample.plain_text
    "hi there" "1" Sample.world0
  = (Return (Some "Hello!", []), agent_entered "hi there" "1" Sample.world0).
Proof.
  apply (call_ai_agent_plain_text Sample.getenv_key Sample.lower Sample.eval
           Sample.plain_text "hi there" "1" "sk-sample" None (Some "Hello!")
           Sample.world0); [reflexivity | discriminate | reflexivity | reflexivity].
Defined.

Lemma chat_starts_conversation_witness :
  exists (response : ChatResponse.t) (w' : World),
    chat Sample.clock Sample.int Sample.getenv_unset Sample.lower Sample.eval
      Sample.unreachable "2" (ChatRequest.mk (Some 0) "hello")
      Sample.world_with_conversation
    = (Return response, w') /\
    ChatResponse.conversation_id response = 2 /\
    conversations (db w') =
      [Sample.conversation1; Conversation.mk 2 2 1700000000 1700000001].
Proof.
  assert (Hrun : exists response w',
             chat Sample.clock Sample.int Sample.getenv_unset Sample.lower Sample.eval
               Sample.unreachable "2" (ChatRequest.mk (Some 0) "hello")
               Sample.world_with_conversation
             = (Return response, w'))
    by (do 2 eexists; cbv; reflexivity).
  destruct Hrun as (response & w' & Hrun).
  destruct (chat_starts_conversation Sample.clock Sample.int Sample.getenv_unset
              Sample.lower Sample.eval Sample.unreachable "2"
              (ChatRequest.mk (Some 0) "hello") Sample.world_with_conversation
              w' response eq_refl Hrun)
    as (uid & Hint & Hconversations & Hid & _).
  cbv in Hint. injection Hint as <-.
  exists response, w'. split; [exact Hrun|]. split; [exact Hid|].
  rewrite Hconversations, Hid. reflexivity.
Defined.

Lemma chat_refreshes_conversation_witness :
  exists (response : ChatResponse.t) (w' : World),
    chat Sample.clock Sample.int Sample.getenv_unset Sample.lower Sample.eval
      Sample.unreachable "1" (ChatRequest.mk (Some 1) "hello")
      Sample.world_with_conversation
    = (Return response, w') /\
    Table.get Conversation.id (conversations (db w')) 1
    = Some (Conversation.mk 1 1 1699999990 1700000000).
Proof.
  assert (Hrun : exists response w',
             chat Sample.clock Sample.int Sample.getenv_unset Sample.lower Sample.eval
               Sample.unreachable "1" (ChatRequest.mk (Some 1) "hello")
               Sample.world_with_conversation
             = (Return response, w'))
    by (do 2 eexists; cbv; reflexivity).
  destruct Hrun as (response & w' & Hrun).
  destruct (chat_refreshes_conversation Sample.clock Sample.int Sample.getenv_unset
              Sample.lower Sample.eval Sample.unreachable "1"
              (ChatRequest.mk (Some 1) "hello") Sample.world_with_conversation
              w' response eq_refl Hrun)
    as (old & Hid & Hold & Hnew & _).
  cbn in Hid. injection Hid as Hid. rewrite <- Hid in Hold, Hnew.
  cbv in Hold. injection Hold as <-.
  exists response, w'. split; [exact Hrun | exact Hnew].
Defined.




Lemma serve_keeps_rowids_ordered_witness :
  let requests :=
    [POST_auth_signup (SignupRequest.mk "Ada" "ada@example.org" "secret");
     POST_mcp_add_task (AddTaskInput.mk "1" "buy milk" None);
     POST_chat "1" (ChatRequest.mk None "what is pending");
     POST_mcp_delete_task (DeleteTaskInput.mk "1" 1);
     POST_mcp_add_task (AddTaskInput.mk "1" "walk" None)] in
  let w :=
    serve Sample.clock Sample.int Sample.getenv_unset Sample.pwd_hash
      Sample.pwd_verify Sample.jwt_encode Sample.lower Sample.eval
      Sample.unreachable requests Sample.world0 in
  db_wf (db w) /\ rowids_positive (db w) /\
  Table.get Conversation.id (conversations (db w)) 0 = None.
Proof.
  cbv zeta.
  apply (serve_keeps_rowids_ordered Sample.clock Sample.int Sample.getenv_unset
           Sample.pwd_hash Sample.pwd_verify Sample.jwt_encode Sample.lower
           Sample.eval Sample.unreachable).
  - repeat split; constructor.
  - repeat split; constructor.
Defined.

Lemma serve_keeps_emails_unique_witness :
  emails_unique
    (db (serve Sample.clock Sample.int Sample.getenv_unset Sample.pwd_hash
           Sample.pwd_verify Sample.jwt_encode Sample.lower Sample.eval
           Sample.unreachable
           [POST_auth_signup (SignupRequest.mk "Ada" "ada@example.org" "secret");
            POST_auth_signup (SignupRequest.mk "Eve" "ada@example.org" "other");
            POST_auth_signup (SignupRequest.mk "Bob" "bob@example.org" "hunter2")]
           Sample.world0)).
Proof.
  apply (serve_keeps_emails_unique Sample.clock Sample.int Sample.getenv_unset
           Sample.pwd_hash Sample.pwd_verify Sample.jwt_encode Sample.lower
           Sample.eval Sample.unreachable).
  constructor.
Defined.

Lemma serve_keeps_messages_linked_witness :
  messages_linked
    (db (serve Sample.clock Sample.int Sample.getenv_unset Sample.pwd_hash
           Sample.pwd_verify Sample.jwt_encode Sample.lower Sample.eval
           Sample.unreachable
           [POST_chat "1" (ChatRequest.mk None "add buy milk");
            POST_chat "2" (ChatRequest.mk (Some 1) "show my tasks");
            POST_chat "2" (ChatRequest.mk (Some 5) "hello")]
           Sample.world0)).
Proof.
  apply (serve_keeps_messages_linked Sample.clock Sample.int Sample.getenv_unset
           Sample.pwd_hash Sample.pwd_verify Sample.jwt_encode Sample.lower
           Sample.eval Sample.unreachable).
  intros message [].
Defined.
